(** * Time-series containers of the deep-learning forecasting notebook

    A shallow embedding of the Python code of
    [Scipy2024_Part_4_Forecasting_with_Deep_Learning.ipynb]: the
    [TimeSeries] dataclass, the converters [gluon_ds_to_timeseries],
    [gluon_predictions_to_timeseries], [timesfm_predictions_to_timeseries],
    the train split [extract_train_dataset] and the inline RMSE computation.

    Modelling conventions:
    - a [datetime] is an integer number of microseconds ([Z]); the range
      limits of Python's [datetime] and of pandas' [Timestamp] are not
      modelled. The time values of the notebook are pandas [Timestamp]s
      ([x["start"].start_time], a [Timestamp] plus or minus a [timedelta]);
      in particular the [date] given to [extract_train_dataset] is one;
    - a sequence of timestamps is a [timeseq]: the elements and whether a
      Python list or an array holds them, which decides what [np.asarray]
      makes of an empty sequence;
    - a one-dimensional [np.ndarray] of floats is a [list float] over Rocq's
      primitive binary64 floats, a two-dimensional one carries its column
      count [shape1] next to its rows;
    - a Python [dict] is an association list in insertion order, updated by
      [dict_set] (an existing key keeps its position and gets the new value,
      a new key is appended);
    - a Python exception is a constructor of [exn] returned through
      [result]. *)

From Stdlib Require Import ZArith Floats.
From stdpp Require Import base option list strings gmap.

Local Open Scope Z_scope.

(** ** Exceptions and results *)

Inductive exn : Type :=
  | TypeError
  | IndexError
  | ValueError
  | KeyError
  | RuntimeError.

Inductive result (A : Type) : Type :=
  | Ok (a : A)
  | Raise (e : exn).

Arguments Ok {A} a.
Arguments Raise {A} e.

Definition bind {A B : Type} (r : result A) (k : A -> result B) : result B :=
  match r with
  | Ok a => k a
  | Raise e => Raise e
  end.

Notation "x <~ r ;; k" := (bind r (fun x => k))
  (at level 100, r at next level, right associativity).

Definition is_Ok {A : Type} (r : result A) : Prop := exists a, r = Ok a.

(** ** Dates *)

Abbreviation datetime := Z.

(** [timedelta(hours=i)], in microseconds. *)
Definition timedelta_hours (i : Z) : Z := i * 3600000000.

(** [range(n)] *)
Definition range (n : nat) : list Z := Z.of_nat <$> seq 0 n.

(** ** Sequences of timestamps

    The [timestamps] attribute holds what the code assigned to it. The
    converters from records and from the TimesFM array build a Python list
    of Timestamps ([PyList]). [extract_train_dataset] stores the NumPy array
    [np.asarray(...)[mask]] and [gluon_predictions_to_timeseries] the pandas
    index [x.index.to_timestamp()] ([Array]): an array of timestamps, of
    dtype [object] or [datetime64], which keeps its dtype when it has no
    element. *)

Inductive timeseq : Type :=
  | PyList (ts : list datetime)
  | Array (ts : list datetime).

Definition elems (s : timeseq) : list datetime :=
  match s with
  | PyList ts => ts
  | Array ts => ts
  end.

(** ** Arrays *)

Abbreviation ndarray := (list float).

(** A two-dimensional array of shape [(length rows, shape1)]. *)
Record ndarray2 : Type := mkNdarray2 {
  shape1 : nat;
  rows : list ndarray
}.

Definition rectangular (a : ndarray2) : Prop :=
  Forall (fun r => length r = shape1 a) (rows a).

(** ** Dictionaries with string keys, in insertion order *)

Abbreviation dict V := (list (string * V)).

(** [d[k] = v] *)
Fixpoint dict_set {V : Type} (k : string) (v : V) (d : dict V) : dict V :=
  match d with
  | [] => [(k, v)]
  | (k', v') :: d' =>
      if decide (k' = k) then (k', v) :: d' else (k', v') :: dict_set k v d'
  end.

(** [d.get(k)] *)
Fixpoint dict_get {V : Type} (k : string) (d : dict V) : option V :=
  match d with
  | [] => None
  | (k', v') :: d' => if decide (k' = k) then Some v' else dict_get k d'
  end.

(** [d[k]] *)
Definition dict_getitem {V : Type} (k : string) (d : dict V) : result V :=
  match dict_get k d with
  | Some v => Ok v
  | None => Raise KeyError
  end.

(** [d.keys()] *)
Definition keys {V : Type} (d : dict V) : list string := d.*1.

(** What every Python dict satisfies: one entry per key. *)
Definition dict_wf {V : Type} (d : dict V) : Prop := NoDup (keys d).

(** ** The [TimeSeries] dataclass

    [timestamps] is [None] in Python when a converter received an empty
    dataset, hence the option. *)

Record TimeSeries : Type := mkTimeSeries {
  timestamps : option timeseq;
  features : dict ndarray
}.

(** The dataclass-generated constructor [TimeSeries(timestamps=..., features=...)]:
    it stores its two arguments and has no [__post_init__]. *)
Definition create (ts : option timeseq) (fs : dict ndarray)
  : result TimeSeries :=
  Ok (mkTimeSeries ts fs).

(** The invariant of the docstring: each feature value has as many elements
    as there are timestamps. *)
Definition shape_ok (c : TimeSeries) : Prop :=
  exists ts, timestamps c = Some ts /\
    Forall (fun kv => length kv.2 = length (elems ts)) (features c).

Fixpoint strictly_increasing (ts : list datetime) : Prop :=
  match ts with
  | [] => True
  | t :: ts' => Forall (fun u => t < u) ts' /\ strictly_increasing ts'
  end.

(** A valid container in the sense of the data model. *)
Definition valid (c : TimeSeries) : Prop :=
  shape_ok c /\ dict_wf (features c) /\
  exists ts, timestamps c = Some ts /\ strictly_increasing (elems ts).

(** ** [gluon_ds_to_timeseries] *)

(** One entry of a Gluon dataset: [start] is [x["start"].start_time]. *)
Record gluon_entry : Type := mkEntry {
  start : datetime;
  target : ndarray;
  item_id : string
}.

(** The loop body, on the local variables [(timestamps, features)]. *)
Definition gluon_ds_step (st : option timeseq * dict ndarray)
    (x : gluon_entry) : option timeseq * dict ndarray :=
  let timestamps :=
    match st.1 with
    | None =>
        Some (PyList ((fun i => start x + timedelta_hours i)
                        <$> range (length (target x))))
    | Some ts => Some ts
    end in
  (timestamps, dict_set (item_id x) (target x) st.2).

Definition gluon_ds_to_timeseries (gluon_ds : list gluon_entry) : TimeSeries :=
  let st := foldl gluon_ds_step (None, []) gluon_ds in
  mkTimeSeries st.1 st.2.

(** ** [gluon_predictions_to_timeseries]

    [model.predict(X.input)] is an iterable of forecasts; a forecast [x]
    exposes [x.index.to_timestamp()] (a pandas [DatetimeIndex]), [x.item_id]
    and [x.mean]. *)

Record gluon_forecast : Type := mkForecast {
  fc_index : list datetime;
  fc_item_id : string;
  fc_mean : ndarray
}.

Definition gluon_predictions_step (st : option timeseq * dict ndarray)
    (x : gluon_forecast) : option timeseq * dict ndarray :=
  let timestamps :=
    match st.1 with
    | None => Some (Array (fc_index x))
    | Some ts => Some ts
    end in
  (timestamps, dict_set (fc_item_id x) (fc_mean x) st.2).

Definition gluon_predictions_to_timeseries (forecasts : list gluon_forecast)
  : TimeSeries :=
  let st := foldl gluon_predictions_step (None, []) forecasts in
  mkTimeSeries st.1 st.2.

(** ** [extract_train_dataset] *)

(** [a < date], element by element. *)
Definition np_less (ts : list datetime) (date : datetime) : list bool :=
  (fun t => bool_decide (t < date)) <$> ts.

(** [np.asarray(timestamps) < date] for a [Timestamp] [date]. [np.asarray]
    makes an array of dtype [object] of a list of Timestamps and leaves an
    array as it is; pandas compares such arrays with [date] element by
    element. An empty list has no element to take a dtype from and becomes
    an array of dtype [float64], which pandas refuses to compare with a
    [Timestamp]: [TypeError]. *)
Definition asarray_less (timestamps : timeseq) (date : datetime)
  : result (list bool) :=
  match timestamps with
  | PyList [] => Raise TypeError
  | _ => Ok (np_less (elems timestamps) date)
  end.

(** The elements of [a] at the positions where [mask] is [True]. *)
Fixpoint bool_index {A : Type} (a : list A) (mask : list bool) : list A :=
  match a, mask with
  | x :: a', b :: mask' =>
      if b then x :: bool_index a' mask' else bool_index a' mask'
  | _, _ => []
  end.

(** [a[mask]] for a boolean array [mask]: NumPy raises [IndexError] when the
    mask and the array differ in length. *)
Definition getitem_mask {A : Type} (a : list A) (mask : list bool)
  : result (list A) :=
  if decide (length mask = length a) then Ok (bool_index a mask)
  else Raise IndexError.

(** [{ name: f(feature) for name, feature in items }], built entry by entry
    into [acc]. *)
Fixpoint dict_comprehension (f : ndarray -> result ndarray)
    (items : list (string * ndarray)) (acc : dict ndarray)
  : result (dict ndarray) :=
  match items with
  | [] => Ok acc
  | (name, feature) :: items' =>
      v <~ f feature ;;
      dict_comprehension f items' (dict_set name v acc)
  end.

Definition extract_train_dataset (dataset : TimeSeries) (date : datetime)
  : result TimeSeries :=
  match timestamps dataset with
  | None => Raise TypeError
  | Some ts =>
      mask <~ asarray_less ts date ;;
      ts' <~ getitem_mask (elems ts) mask ;;
      fs' <~ dict_comprehension (fun feature => getitem_mask feature mask)
               (features dataset) [] ;;
      Ok (mkTimeSeries (Some (Array ts')) fs')
  end.

(** Modelled from the spec: the notebook has no held-out view; the spec's
    [slice_by_time(predicate)] keeps the timestamps satisfying the predicate
    and filters every series by the same boolean mask, index for index, and
    [held_out_view = container.slice_by_time(timestamp >= cutoff_time)].
    The new container holds its timestamps as the train view does. *)
Definition slice_by_time (c : TimeSeries) (p : datetime -> bool) : TimeSeries :=
  let ts := default [] (elems <$> timestamps c) in
  let mask := p <$> ts in
  mkTimeSeries (Some (Array (bool_index ts mask)))
    ((fun kv => (kv.1, bool_index kv.2 mask)) <$> features c).

Definition held_out_view (c : TimeSeries) (cutoff_time : datetime) : TimeSeries :=
  slice_by_time c (fun t => bool_decide (cutoff_time <= t)).

(** ** [timesfm_predictions_to_timeseries]

    The function reads two globals of the notebook, [end_of_train] and
    [train_dataset]; they are the variables of this section. The [features]
    argument is passed by value here: this is the function for a call
    without [features] and for a dictionary that is not the one of
    [train_dataset]. The [Store] module below models the dictionary objects,
    and with them the call that passes [train_dataset.features] itself. *)

Section Globals.
Variable end_of_train : datetime.
Variable train_dataset : TimeSeries.

Definition timesfm_predictions_to_timeseries (timesfm_predictions : ndarray2)
    (prefix : string) (features0 : option (dict ndarray)) : TimeSeries :=
  let features1 :=
    match features0 with
    | None => []
    | Some d => d
    end in
  let timestamps :=
    (fun i => end_of_train + timedelta_hours i)
      <$> range (shape1 timesfm_predictions) in
  let features2 :=
    foldl (fun fs np => dict_set (prefix +:+ np.1) np.2 fs) features1
      (zip (keys (features train_dataset)) (rows timesfm_predictions)) in
  mkTimeSeries (Some (PyList timestamps)) features2.
End Globals.

(** ** The RMSE computation *)

(** [a - b] on one-dimensional arrays, with NumPy's broadcasting: equal
    lengths subtract element by element, a length-one array is stretched to
    the other's length, anything else raises [ValueError]. *)
Definition np_sub (a b : ndarray) : result ndarray :=
  if decide (length a = length b) then Ok (zip_with PrimFloat.sub a b)
  else match a, b with
       | [x], _ => Ok ((fun y => PrimFloat.sub x y) <$> b)
       | _, [y] => Ok ((fun x => PrimFloat.sub x y) <$> a)
       | _, _ => Raise ValueError
       end.

(** [a ** 2] *)
Definition np_square (a : ndarray) : ndarray :=
  (fun x => PrimFloat.mul x x) <$> a.

(** [np.sum(a)], accumulating from [0.0] in the order of the elements and
    in binary64. NumPy adds arrays of eight elements and more pairwise, in
    blocks, and the notebook's arrays hold float32 values, so the last bits
    of a sum can differ from the ones computed here. What is proved below
    about the sum (the sum of zeros, and that equal arrays have equal sums)
    does not depend on the order of the additions or on the width of the
    format. *)
Definition np_sum (a : ndarray) : float := foldl PrimFloat.add 0%float a.

(** [len(a)] as a float. *)
Definition float_of_nat (n : nat) : float :=
  PrimFloat.of_uint63 (Uint63.of_Z (Z.of_nat n)).

(** [np.mean(a)] *)
Definition np_mean (a : ndarray) : float :=
  PrimFloat.div (np_sum a) (float_of_nat (length a)).

(** [np.sqrt(np.mean((ot_prediction - ot_ground_truth) ** 2))] *)
Definition rmse (ot_prediction ot_ground_truth : ndarray) : result float :=
  d <~ np_sub ot_prediction ot_ground_truth ;;
  Ok (PrimFloat.sqrt (np_mean (np_square d))).

(** [a[-k:]] *)
Definition tail_slice {A : Type} (a : list A) (k : nat) : list A :=
  match k with
  | O => a
  | S _ => drop (length a - k) a
  end.

(** The evaluation step of the context-length sweep. *)
Definition evaluate (predictions dataset : TimeSeries) : result float :=
  ot_prediction <~ dict_getitem "OT_0" (features predictions) ;;
  ot <~ dict_getitem "OT_0" (features dataset) ;;
  rmse ot_prediction (tail_slice ot (length ot_prediction)).

(** ** The dictionary objects and their aliasing

    [timesfm_predictions_to_timeseries] assigns into the dictionary it was
    given, so the dictionaries are modelled as objects of a store, named by
    their location. A computation takes the store and returns a result with
    the store it leaves behind (an exception keeps the assignments made
    before it). Arrays stay values: no code of the notebook writes into an
    array. *)

Module Store.

Abbreviation loc := positive.

Abbreviation store := (gmap positive (dict ndarray)).

(** A [TimeSeries] object: its [features] attribute refers to a dictionary
    object. *)
Record TimeSeriesObj : Type := mkObj {
  obj_timestamps : option timeseq;
  obj_features : loc
}.

Definition M (A : Type) : Type := store -> result A * store.

Definition ret {A : Type} (a : A) : M A := fun s => (Ok a, s).

Definition raise {A : Type} (e : exn) : M A := fun s => (Raise e, s).

Definition mbind {A B : Type} (m : M A) (k : A -> M B) : M B :=
  fun s =>
    match m s with
    | (Ok a, s') => k a s'
    | (Raise e, s') => (Raise e, s')
    end.

Notation "x <- m ;;; k" := (mbind m (fun x => k))
  (at level 100, m at next level, right associativity).

(** [{}]: a new dictionary object. *)
Definition new_dict : M loc :=
  fun s => let l := fresh (dom s) in (Ok l, <[l := []]> s).

(** The dictionary a location refers to. *)
Definition deref (s : store) (l : loc) : dict ndarray := default [] (s !! l).

(** [d[k] = v] on the object at [l]. *)
Definition setitem (l : loc) (k : string) (v : ndarray) : M unit :=
  fun s => (Ok tt, alter (dict_set k v) l s).

(** The value of a [TimeSeries] object in a store. *)
Definition read (s : store) (o : TimeSeriesObj) : TimeSeries :=
  mkTimeSeries (obj_timestamps o) (deref s (obj_features o)).

(** The loop of [gluon_ds_to_timeseries], from the local [timestamps] to its
    final value; [features] is the location of the local dictionary. *)
Fixpoint gluon_ds_loop (timestamps : option timeseq) (features : loc)
    (gluon_ds : list gluon_entry) : M (option timeseq) :=
  match gluon_ds with
  | [] => ret timestamps
  | x :: rest =>
      let timestamps' :=
        match timestamps with
        | None =>
            Some (PyList ((fun i => start x + timedelta_hours i)
                            <$> range (length (target x))))
        | Some ts => Some ts
        end in
      _ <- setitem features (item_id x) (target x) ;;;
      gluon_ds_loop timestamps' features rest
  end.

Definition gluon_ds_to_timeseries (gluon_ds : list gluon_entry)
  : M TimeSeriesObj :=
  features <- new_dict ;;;
  timestamps <- gluon_ds_loop None features gluon_ds ;;;
  ret (mkObj timestamps features).

Fixpoint gluon_predictions_loop (timestamps : option timeseq)
    (features : loc) (forecasts : list gluon_forecast)
  : M (option timeseq) :=
  match forecasts with
  | [] => ret timestamps
  | x :: rest =>
      let timestamps' :=
        match timestamps with
        | None => Some (Array (fc_index x))
        | Some ts => Some ts
        end in
      _ <- setitem features (fc_item_id x) (fc_mean x) ;;;
      gluon_predictions_loop timestamps' features rest
  end.

Definition gluon_predictions_to_timeseries (forecasts : list gluon_forecast)
  : M TimeSeriesObj :=
  features <- new_dict ;;;
  timestamps <- gluon_predictions_loop None features forecasts ;;;
  ret (mkObj timestamps features).

(** The dictionary comprehension of [extract_train_dataset], filling the new
    dictionary object [dst]. *)
Fixpoint fill (f : ndarray -> result ndarray)
    (items : list (string * ndarray)) (dst : loc) : M unit :=
  match items with
  | [] => ret tt
  | (name, feature) :: items' =>
      match f feature with
      | Ok v => _ <- setitem dst name v ;;; fill f items' dst
      | Raise e => raise e
      end
  end.

Definition extract_train_dataset (dataset : TimeSeriesObj) (date : datetime)
  : M TimeSeriesObj :=
  match obj_timestamps dataset with
  | None => raise TypeError
  | Some ts =>
      match (mask <~ asarray_less ts date ;;
             ts' <~ getitem_mask (elems ts) mask ;;
             Ok (mask, ts')) with
      | Raise e => raise e
      | Ok (mask, ts') =>
          fun s =>
            (dst <- new_dict ;;;
             _ <- fill (fun feature => getitem_mask feature mask)
                    (deref s (obj_features dataset)) dst ;;;
             ret (mkObj (Some (Array ts')) dst)) s
      end
  end.

Section Globals.
Variable end_of_train : datetime.
Variable train_dataset : TimeSeriesObj.

(** The loop [for name, prediction in zip(train_dataset.features.keys(),
    timesfm_predictions): features[prefix + name] = prediction].
    The key iterator reads the live dictionary: it raises [RuntimeError]
    when the dictionary no longer has the [used] entries it had when the
    iteration started, and is exhausted at position [pos] past the last
    entry. [zip] asks the key iterator first. *)
Fixpoint zip_loop (used pos : nat) (predictions : list ndarray)
    (prefix : string) (features : loc) : M unit :=
  fun s =>
    let d := deref s (obj_features train_dataset) in
    if decide (length d = used) then
      match d !! pos, predictions with
      | Some (name, _), prediction :: predictions' =>
          (_ <- setitem features (prefix +:+ name) prediction ;;;
           zip_loop used (S pos) predictions' prefix features) s
      | _, _ => (Ok tt, s)
      end
    else (Raise RuntimeError, s).

Definition timesfm_predictions_to_timeseries
    (timesfm_predictions : ndarray2) (prefix : string)
    (features0 : option loc) : M TimeSeriesObj :=
  features <- match features0 with
              | None => new_dict
              | Some l => ret l
              end ;;;
  let timestamps :=
    (fun i => end_of_train + timedelta_hours i)
      <$> range (shape1 timesfm_predictions) in
  fun s =>
    (_ <- zip_loop (length (deref s (obj_features train_dataset))) 0
           (rows timesfm_predictions) prefix features ;;;
     ret (mkObj (Some (PyList timestamps)) features)) s.

End Globals.

End Store.

(** ** Definitions used in the statements *)

(** [d.update(kvs)]: the assignments [d[k] = v] for the pairs of [kvs], in
    order. *)
Definition dict_update {V : Type} (d : dict V) (kvs : list (string * V))
  : dict V :=
  foldl (fun d kv => dict_set kv.1 kv.2 d) d kvs.

(** The last pair of [kvs] with key [k]. *)
Definition last_with_key {V : Type} (k : string) (kvs : list (string * V))
  : option V :=
  snd <$> last (filter (fun kv => kv.1 = k) kvs).

(** The number of entries of a dictionary stored under [k]. *)
Definition count_key {V : Type} (k : string) (d : dict V) : nat :=
  length (filter (fun kv => kv.1 = k) d).

Definition entry_pair (x : gluon_entry) : string * ndarray :=
  (item_id x, target x).

Definition forecast_pair (x : gluon_forecast) : string * ndarray :=
  (fc_item_id x, fc_mean x).

(** The assignments made by the loop of [timesfm_predictions_to_timeseries]:
    the prefixed names of the training series paired with the rows of the
    forecast array, as [zip] pairs them. *)
Definition prefixed_rows (train_features : dict ndarray) (prefix : string)
    (predictions : list ndarray) : list (string * ndarray) :=
  (fun np => (prefix +:+ np.1, np.2)) <$> zip (keys train_features) predictions.

(** Every dictionary object of [s] is in [s'] as it was. *)
Definition unchanged (s s' : gmap positive (dict ndarray)) : Prop :=
  forall l, l ∈ dom s -> s' !! l = s !! l.

(** ** The cut-off dates of the notebook *)

(** [timedelta(days=d)], in microseconds. *)
Definition timedelta_days (d : Z) : Z := d * 86400000000.

(** [a[-1]] on a list or an array. *)
Definition getitem_last {A : Type} (a : list A) : result A :=
  match last a with
  | Some x => Ok x
  | None => Raise IndexError
  end.

(** [end_of_data = dataset.timestamps[-1]] *)
Definition end_of_data (dataset : TimeSeries) : result datetime :=
  match timestamps dataset with
  | None => Raise TypeError
  | Some ts => getitem_last (elems ts)
  end.

(** [end_of_train = end_of_data - timedelta(days=7)] *)
Definition end_of_train (end_of_data : datetime) : datetime :=
  end_of_data - timedelta_days 7.

(** ** The series selected by [plot_predictions] *)

(** [n in name] on strings: [n] occurs in [name] as a substring. *)
Fixpoint str_in (n name : string) : bool :=
  if String.prefix n name then true
  else match name with
       | EmptyString => false
       | String _ rest => str_in n rest
       end.

Definition name_of_interest : list string := ["OT_0"; "OT_1"].

(** The local function [display] of [plot_predictions]. *)
Definition display (name : string) : bool :=
  existsb (fun n => str_in n name) name_of_interest.

(** ** The context-length sweep

    [tfm.forecast(forecast_input, freq=frequency_input,
    forecast_context_len=context_len)] is the pretrained model, outside the
    notebook: [forecast] gives the array it returns for a context length.
    The other variables are the globals the loop reads. *)

Section Sweep.
Variable forecast : Z -> ndarray2.
Variable end_of_train_date : datetime.
Variable train_dataset : TimeSeries.
Variable dataset : TimeSeries.

(** The loop body for the indices [idxs] still to run, appending to
    [results] the pairs [(rmse, context_len)]. *)
Fixpoint sweep_loop (idxs : list Z) (results : list (float * Z))
  : result (list (float * Z)) :=
  match idxs with
  | [] => Ok results
  | context_len_idx :: rest =>
      let context_len := 32 * context_len_idx in
      let timesfm_predictions := forecast context_len in
      let predictions :=
        timesfm_predictions_to_timeseries end_of_train_date train_dataset
          timesfm_predictions "" None in
      rmse <~ evaluate predictions dataset ;;
      sweep_loop rest (results ++ [(rmse, context_len)])
  end.

(** [for context_len_idx in range(1, num_context_len_idx): ...] from
    [results = []]. *)
Definition sweep (num_context_len_idx : nat) : result (list (float * Z)) :=
  sweep_loop (Z.of_nat <$> seq 1 (num_context_len_idx - 1)) [].
End Sweep.

(** ** Definitions used in the statements of the further properties *)

(** [n] timestamps one hour apart from [start]. *)
Definition hourly (start : datetime) (n : nat) : list datetime :=
  (fun i => start + timedelta_hours i) <$> range n.

(** * Properties *)

(** ** Dictionaries *)

Section DictFacts.
Context {V : Type}.
Implicit Types (d : dict V) (k : string) (v : V).

Lemma dict_get_set_eq d k v : dict_get k (dict_set k v d) = Some v.
Proof.
  induction d as [|[k' v'] d IHd]; simpl; repeat case_decide; simpl;
    repeat case_decide; congruence.
Qed.

Lemma dict_get_set_ne d k k' v :
  k <> k' -> dict_get k' (dict_set k v d) = dict_get k' d.
Proof.
  intros Hne. induction d as [|[k0 v0] d IHd]; simpl; repeat case_decide;
    simpl; repeat case_decide; congruence.
Qed.

Lemma dict_get_None d k : dict_get k d = None <-> k ∉ keys d.
Proof.
  unfold keys. induction d as [|[k' v'] d IH]; simpl.
  - split; [intros _; apply not_elem_of_nil | done].
  - rewrite not_elem_of_cons. destruct (decide (k' = k)) as [->|Hne].
    + split; [done | intros [? _]; done].
    + rewrite IH. intuition (subst; eauto; congruence).
Qed.

Lemma dict_set_fresh d k v : k ∉ keys d -> dict_set k v d = d ++ [(k, v)].
Proof.
  unfold keys. induction d as [|[k' v'] d IHd]; [done|].
  rewrite fmap_cons, not_elem_of_cons. intros [Hne Hd].
  cbn [dict_set]. case_decide; [done|]. by rewrite IHd.
Qed.

Lemma keys_dict_set d k v :
  keys (dict_set k v d) = if decide (k ∈ keys d) then keys d else keys d ++ [k].
Proof.
  unfold keys. induction d as [|[k' v'] d IHd].
  - case_decide as Hin; [by apply elem_of_nil in Hin | done].
  - cbn [dict_set]. rewrite fmap_cons. cbn [fst].
    destruct (decide (k' = k)) as [->|Hne].
    + rewrite decide_True; [done | apply list_elem_of_here].
    + rewrite fmap_cons, IHd. cbn [fst].
      destruct (decide (k ∈ d.*1)) as [Hin|Hnin].
      * rewrite decide_True; [done | by apply list_elem_of_further].
      * rewrite decide_False; [done |].
        rewrite not_elem_of_cons. intuition (subst; eauto; congruence).
Qed.

Lemma elem_of_keys_dict_set d k k' v :
  k' ∈ keys (dict_set k v d) <-> k' = k \/ k' ∈ keys d.
Proof.
  rewrite keys_dict_set. destruct (decide (k ∈ keys d)).
  - intuition (subst; eauto; congruence).
  - rewrite elem_of_app, list_elem_of_singleton. intuition (subst; eauto; congruence).
Qed.

Lemma dict_wf_set d k v : dict_wf d -> dict_wf (dict_set k v d).
Proof.
  unfold dict_wf. rewrite keys_dict_set. intros Hwf.
  destruct (decide (k ∈ keys d)); [done|].
  apply NoDup_app. split_and!; [done | | apply NoDup_singleton].
  intros x Hx Hk. apply list_elem_of_singleton in Hk. by subst.
Qed.

Lemma length_dict_set_le d k v : (length d <= length (dict_set k v d))%nat.
Proof.
  induction d as [|[k' v'] d IH]; simpl; [lia|].
  destruct (decide (k' = k)); simpl; lia.
Qed.

Lemma dict_update_app d kvs1 kvs2 :
  dict_update d (kvs1 ++ kvs2) = dict_update (dict_update d kvs1) kvs2.
Proof. unfold dict_update. apply foldl_app. Qed.

Lemma dict_get_update d kvs k :
  dict_get k (dict_update d kvs) =
  match last_with_key k kvs with
  | Some v => Some v
  | None => dict_get k d
  end.
Proof.
  unfold last_with_key.
  induction kvs as [|[k' v'] kvs IH] using rev_ind; [done|].
  rewrite dict_update_app, filter_app. simpl.
  rewrite filter_cons, filter_nil. simpl.
  destruct (decide (k' = k)) as [->|Hne].
  - rewrite last_snoc. simpl. apply dict_get_set_eq.
  - rewrite app_nil_r, dict_get_set_ne by done. apply IH.
Qed.

Lemma elem_of_keys_update d kvs k :
  k ∈ keys (dict_update d kvs) <-> k ∈ keys d \/ k ∈ kvs.*1.
Proof.
  revert d. induction kvs as [|[k' v'] kvs IH]; intros d; simpl.
  - rewrite elem_of_nil. intuition (subst; eauto; congruence).
  - change (dict_update d ((k', v') :: kvs))
      with (dict_update (dict_set k' v' d) kvs).
    rewrite IH, elem_of_keys_dict_set, elem_of_cons. intuition (subst; eauto; congruence).
Qed.

Lemma dict_wf_update d kvs : dict_wf d -> dict_wf (dict_update d kvs).
Proof.
  revert d. induction kvs as [|[k' v'] kvs IH]; intros d Hwf; [done|].
  apply IH. by apply dict_wf_set.
Qed.

Lemma dict_update_fresh d kvs :
  NoDup kvs.*1 -> (forall k, k ∈ kvs.*1 -> k ∉ keys d) ->
  dict_update d kvs = d ++ kvs.
Proof.
  revert d. induction kvs as [|[k' v'] kvs IH]; intros d Hnd Hfresh.
  - by rewrite app_nil_r.
  - simpl in Hnd. apply NoDup_cons in Hnd as [Hk' Hnd].
    change (dict_update d ((k', v') :: kvs))
      with (dict_update (dict_set k' v' d) kvs).
    rewrite dict_set_fresh by (apply Hfresh; simpl; apply list_elem_of_here).
    rewrite IH; [by rewrite <- app_assoc | done |].
    intros k Hk. unfold keys. rewrite fmap_app, elem_of_app. simpl.
    rewrite list_elem_of_singleton. intros [Hd| ->]; [|done].
    eapply Hfresh; [|exact Hd]. simpl. by apply list_elem_of_further.
Qed.

Lemma count_key_absent d k : k ∉ keys d -> count_key k d = 0%nat.
Proof.
  unfold keys, count_key. induction d as [|[k' v'] d IHd]; [done|].
  rewrite fmap_cons, not_elem_of_cons. cbn [fst]. intros [Hne Hd].
  rewrite filter_cons_False by (simpl; congruence). by apply IHd.
Qed.

Lemma count_key_wf d k : dict_wf d -> k ∈ keys d -> count_key k d = 1%nat.
Proof.
  unfold dict_wf. induction d as [|[k' v'] d IHd]; intros Hwf Hin.
  - by apply elem_of_nil in Hin.
  - unfold keys in Hwf, Hin. rewrite fmap_cons in Hwf, Hin. cbn [fst] in *.
    apply NoDup_cons in Hwf as [Hk' Hwf]. unfold count_key.
    destruct (decide (k' = k)) as [->|Hne].
    + rewrite filter_cons_True by done. cbn [length]. f_equal.
      by apply count_key_absent.
    + rewrite filter_cons_False by (simpl; congruence).
      apply IHd; [done|]. apply elem_of_cons in Hin as [?|?]; [congruence|done].
Qed.

End DictFacts.

Lemma last_with_key_last {V : Type} (k : string) (v : V)
    (kvs1 kvs2 : list (string * V)) :
  (forall kv, kv ∈ kvs2 -> kv.1 <> k) ->
  last_with_key k (kvs1 ++ (k, v) :: kvs2) = Some v.
Proof.
  intros Hnone. unfold last_with_key.
  rewrite filter_app, filter_cons_True by done.
  replace (filter (fun kv : string * V => kv.1 = k) kvs2) with (@nil (string * V)).
  - by rewrite last_snoc.
  - symmetry. induction kvs2 as [|kv kvs2 IHk]; [done|].
    rewrite filter_cons_False.
    + apply IHk. intros kv' Hin. apply Hnone. by apply list_elem_of_further.
    + apply Hnone, list_elem_of_here.
Qed.

(** ** The converters from Gluon *)

Lemma gluon_ds_fold (st : option timeseq * dict ndarray)
    (ds : list gluon_entry) :
  foldl gluon_ds_step st ds =
  (match st.1 with
   | Some ts => Some ts
   | None =>
       (fun x => PyList ((fun i => start x + timedelta_hours i)
                           <$> range (length (target x)))) <$> head ds
   end,
   dict_update st.2 (entry_pair <$> ds)).
Proof.
  revert st. induction ds as [|x ds IHds]; intros [ts fs].
  - simpl. by destruct ts.
  - cbn [foldl]. rewrite IHds. unfold gluon_ds_step at 1 2. cbn [fst snd].
    by destruct ts.
Qed.

Lemma gluon_ds_to_timeseries_eq (ds : list gluon_entry) :
  gluon_ds_to_timeseries ds =
  mkTimeSeries
    ((fun x => PyList ((fun i => start x + timedelta_hours i)
                         <$> range (length (target x)))) <$> head ds)
    (dict_update [] (entry_pair <$> ds)).
Proof. unfold gluon_ds_to_timeseries. by rewrite gluon_ds_fold. Qed.

Lemma gluon_predictions_fold (st : option timeseq * dict ndarray)
    (fs : list gluon_forecast) :
  foldl gluon_predictions_step st fs =
  (match st.1 with
   | Some ts => Some ts
   | None => (fun x => Array (fc_index x)) <$> head fs
   end,
   dict_update st.2 (forecast_pair <$> fs)).
Proof.
  revert st. induction fs as [|x fs IHfs]; intros [ts d].
  - simpl. by destruct ts.
  - cbn [foldl]. rewrite IHfs. unfold gluon_predictions_step at 1 2.
    cbn [fst snd]. by destruct ts.
Qed.

Lemma gluon_predictions_to_timeseries_eq (fs : list gluon_forecast) :
  gluon_predictions_to_timeseries fs =
  mkTimeSeries ((fun x => Array (fc_index x)) <$> head fs)
    (dict_update [] (forecast_pair <$> fs)).
Proof. unfold gluon_predictions_to_timeseries. by rewrite gluon_predictions_fold. Qed.

Lemma entry_pair_keys (ds : list gluon_entry) :
  (entry_pair <$> ds).*1 = item_id <$> ds.
Proof. rewrite <- list_fmap_compose. done. Qed.

(** C5, as the code has it. [gluon_ds_to_timeseries] computes the shared
    timestamps from the first record alone, one hour per element of its
    value sequence, whatever the other records hold; it checks nothing and
    always returns a container. The container has exactly one series per
    distinct series identifier, keyed by that identifier, and when the
    identifiers of the records are pairwise distinct its series are the
    records' value sequences, one per record and in the records' order. *)
Theorem gluon_ds_to_timeseries_first_record
    (x : gluon_entry) (rest : list gluon_entry) :
  let c := gluon_ds_to_timeseries (x :: rest) in
  timestamps c =
    Some (PyList ((fun i => start x + timedelta_hours i)
                    <$> range (length (target x))))
  /\ dict_wf (features c)
  /\ (forall k, k ∈ keys (features c) <-> k ∈ item_id <$> (x :: rest))
  /\ (forall k, k ∈ item_id <$> (x :: rest) -> count_key k (features c) = 1%nat)
  /\ (NoDup (item_id <$> (x :: rest)) ->
      features c = entry_pair <$> (x :: rest)).
Proof.
  intros c. subst c. rewrite gluon_ds_to_timeseries_eq. cbn [timestamps features].
  assert (Hwf : dict_wf (dict_update [] (entry_pair <$> x :: rest))).
  { apply dict_wf_update, NoDup_nil_2. }
  assert (Hkeys : forall k, k ∈ keys (dict_update [] (entry_pair <$> x :: rest))
                            <-> k ∈ item_id <$> (x :: rest)).
  { intros k. rewrite elem_of_keys_update, entry_pair_keys.
    unfold keys. rewrite fmap_nil, elem_of_nil. intuition (subst; eauto; congruence). }
  split_and!; [done | done | done | |].
  - intros k Hk. apply count_key_wf; [done | by apply Hkeys].
  - intros Hnd. rewrite dict_update_fresh; [done | by rewrite entry_pair_keys |].
    intros k _. apply not_elem_of_nil.
Qed.

Lemma gluon_ds_to_timeseries_first_record_witness :
  let x := mkEntry 0 [1%float; 2%float] "HUFL" in
  let y := mkEntry 7 [3%float] "OT" in
  features (gluon_ds_to_timeseries [x; y]) = [entry_pair x; entry_pair y].
Proof.
  intros x y.
  apply (gluon_ds_to_timeseries_first_record x [y]).
  vm_compute. apply NoDup_cons. split.
  - rewrite list_elem_of_singleton. discriminate.
  - apply NoDup_singleton.
Defined.

Lemma gluon_ds_to_timeseries_one_series_per_record_counterexample :
  let ds := [mkEntry 0 [1%float] "OT"; mkEntry 0 [2%float] "OT"] in
  length (features (gluon_ds_to_timeseries ds)) <> length ds.
Proof. vm_compute. discriminate. Qed.

(** C10. When two records of the input share a series identifier,
    [gluon_ds_to_timeseries] still returns a container (it is a total
    function); the container holds exactly one series under that identifier,
    and it holds the values of the last record with that identifier. *)
Theorem gluon_ds_duplicate_last_wins
    (ds1 ds2 ds3 : list gluon_entry) (x y : gluon_entry) :
  item_id x = item_id y ->
  (forall z, z ∈ ds3 -> item_id z <> item_id y) ->
  let c := gluon_ds_to_timeseries (ds1 ++ x :: ds2 ++ y :: ds3) in
  dict_get (item_id y) (features c) = Some (target y)
  /\ count_key (item_id y) (features c) = 1%nat.
Proof.
  intros Hxy Hlast c. subst c. rewrite gluon_ds_to_timeseries_eq.
  cbn [features]. split.
  - rewrite dict_get_update.
    replace (ds1 ++ x :: ds2 ++ y :: ds3) with ((ds1 ++ x :: ds2) ++ y :: ds3)
      by (by rewrite <- app_assoc).
    rewrite fmap_app, fmap_cons. unfold entry_pair at 2.
    rewrite last_with_key_last; [done|].
    intros kv [z [-> Hz]]%list_elem_of_fmap. simpl. by apply Hlast.
  - apply count_key_wf; [apply dict_wf_update, NoDup_nil_2|].
    rewrite elem_of_keys_update, entry_pair_keys. right.
    rewrite fmap_app, elem_of_app. right. rewrite fmap_cons, elem_of_cons. right.
    rewrite fmap_app, elem_of_app. right. rewrite fmap_cons. apply list_elem_of_here.
Qed.

Lemma gluon_ds_duplicate_last_wins_witness :
  let x := mkEntry 0 [1%float; 2%float] "OT" in
  let y := mkEntry 0 [3%float; 4%float] "OT" in
  let c := gluon_ds_to_timeseries ([] ++ x :: [] ++ y :: []) in
  dict_get "OT" (features c) = Some [3%float; 4%float]
  /\ count_key "OT" (features c) = 1%nat.
Proof.
  intros x y.
  apply (gluon_ds_duplicate_last_wins [] [] [] x y).
  - reflexivity.
  - intros z Hz. by apply elem_of_nil in Hz.
Defined.

(** ** The converter from the TimesFM forecast array *)

Lemma append_inj_r (p a b : string) : p +:+ a = p +:+ b -> a = b.
Proof. induction p as [|c p IHp]; simpl; [done|]. intros [= H]. by apply IHp. Qed.

Lemma timesfm_predictions_to_timeseries_eq (end_of_train : datetime)
    (train_dataset : TimeSeries) (predictions : ndarray2) (prefix : string)
    (features0 : option (dict ndarray)) :
  timesfm_predictions_to_timeseries end_of_train train_dataset predictions
    prefix features0 =
  mkTimeSeries
    (Some (PyList ((fun i => end_of_train + timedelta_hours i)
                     <$> range (shape1 predictions))))
    (dict_update (default [] features0)
       (prefixed_rows (features train_dataset) prefix (rows predictions))).
Proof.
  unfold timesfm_predictions_to_timeseries, prefixed_rows, dict_update.
  rewrite foldl_fmap. by destruct features0.
Qed.

Lemma zip_fst_take {A B : Type} (l : list A) (k : list B) :
  (zip l k).*1 = take (length k) l.
Proof.
  revert k. induction l as [|x l IHl]; intros [|y k]; simpl; try done.
  by rewrite IHl.
Qed.

Lemma NoDup_take_1 {A : Type} (l : list A) (n : nat) :
  NoDup l -> NoDup (take n l).
Proof.
  revert n. induction l as [|x l IHl]; intros [|n] Hnd; simpl;
    try apply NoDup_nil_2.
  apply NoDup_cons in Hnd as [Hx Hnd]. apply NoDup_cons. split; [|by apply IHl].
  intros Hin. apply Hx. apply elem_of_take in Hin as (i & Hi & _).
  by eapply list_elem_of_lookup_2.
Qed.

Lemma prefixed_rows_keys (d : dict ndarray) (prefix : string)
    (predictions : list ndarray) :
  (prefixed_rows d prefix predictions).*1 =
  (fun k => prefix +:+ k) <$> take (length predictions) (keys d).
Proof.
  unfold prefixed_rows. rewrite <- zip_fst_take, <- !list_fmap_compose. done.
Qed.

Lemma prefixed_rows_NoDup (d : dict ndarray) (prefix : string)
    (predictions : list ndarray) :
  dict_wf d -> NoDup (prefixed_rows d prefix predictions).*1.
Proof.
  intros Hwf. rewrite prefixed_rows_keys. apply NoDup_fmap_2_strong.
  - intros a b _ _. apply append_inj_r.
  - by apply NoDup_take_1.
Qed.

Lemma dict_get_lookup {V : Type} (d : dict V) (i : nat) (k : string) (v : V) :
  dict_wf d -> d !! i = Some (k, v) -> dict_get k d = Some v.
Proof.
  unfold dict_wf, keys. revert i.
  induction d as [|[k' v'] d IHd]; intros i Hwf Hi; [done|].
  rewrite fmap_cons in Hwf. apply NoDup_cons in Hwf as [Hk' Hwf].
  cbn [dict_get]. destruct i as [|i]; simpl in Hi.
  - injection Hi as -> ->. by rewrite decide_True.
  - rewrite decide_False; [by eapply IHd|].
    intros ->. apply Hk'. apply list_elem_of_fmap. exists (k, v).
    split; [done|]. by eapply list_elem_of_lookup_2.
Qed.

Lemma length_range (n : nat) : length (range n) = n.
Proof. unfold range. by rewrite length_fmap, length_seq. Qed.

(** C6. For every rectangular forecast array, and with no [features]
    argument, [timesfm_predictions_to_timeseries] returns a container whose
    timestamps are [end_of_train] plus [j] hours for each column index [j],
    and whose series are the rows of the array, the i-th row stored under
    the prefixed name of the i-th training series; each series has as many
    values as there are timestamps. In particular the 2x3 array
    [[1,2,3],[4,5,6]] with training series "A" and "B" gives the timestamps
    [t0, t0+1h, t0+2h] and the series A=[1,2,3], B=[4,5,6]. *)
Theorem timesfm_predictions_to_timeseries_rows
    (end_of_train : datetime) (train_dataset : TimeSeries)
    (predictions : ndarray2) (prefix : string) :
  dict_wf (features train_dataset) ->
  rectangular predictions ->
  let c := timesfm_predictions_to_timeseries end_of_train train_dataset
             predictions prefix None in
  timestamps c =
    Some (PyList ((fun j => end_of_train + j * 3600000000)
                    <$> range (shape1 predictions)))
  /\ features c =
       prefixed_rows (features train_dataset) prefix (rows predictions)
  /\ (forall i name row,
        keys (features train_dataset) !! i = Some name ->
        rows predictions !! i = Some row ->
        dict_get (prefix +:+ name) (features c) = Some row)
  /\ shape_ok c
  /\ (forall (t0 : datetime) (ts0 : option timeseq) (a b : ndarray),
        timesfm_predictions_to_timeseries t0
          (mkTimeSeries ts0 [("A", a); ("B", b)])
          (mkNdarray2 3 [[1; 2; 3]; [4; 5; 6]]%float) "" None =
        mkTimeSeries (Some (PyList [t0; t0 + 3600000000; t0 + 2 * 3600000000]))
          [("A", [1; 2; 3]%float); ("B", [4; 5; 6]%float)]).
Proof.
  intros Hwf Hrect c. subst c. rewrite timesfm_predictions_to_timeseries_eq.
  cbn [timestamps features default].
  assert (Hfs : dict_update [] (prefixed_rows (features train_dataset) prefix
                                  (rows predictions)) =
                prefixed_rows (features train_dataset) prefix (rows predictions)).
  { rewrite dict_update_fresh; [done | by apply prefixed_rows_NoDup |].
    intros k _. apply not_elem_of_nil. }
  rewrite Hfs. split_and!.
  - done.
  - done.
  - intros i name row Hname Hrow.
    apply (dict_get_lookup _ i); [by apply prefixed_rows_NoDup|].
    unfold prefixed_rows. rewrite list_lookup_fmap.
    assert (Hz : zip (keys (features train_dataset)) (rows predictions) !! i
                 = Some (name, row)).
    { apply lookup_zip_with_Some. eauto. }
    by rewrite Hz.
  - eexists. split; [done|]. cbn [features elems].
    rewrite length_fmap, length_range. unfold prefixed_rows.
    apply Forall_fmap, Forall_forall. intros [name row] Hin. simpl.
    apply elem_of_zip_r in Hin.
    unfold rectangular in Hrect. rewrite Forall_forall in Hrect. by apply Hrect.
  - intros t0 ts0 a b. unfold timesfm_predictions_to_timeseries.
    cbn. unfold timedelta_hours. do 2 f_equal. repeat (f_equal; try lia).
Qed.

Lemma timesfm_predictions_to_timeseries_rows_witness :
  let train :=
    mkTimeSeries (Some (PyList [0; 1]))
      [("A", [7; 8]%float); ("B", [9; 10]%float)] in
  let c := timesfm_predictions_to_timeseries 5 train
             (mkNdarray2 3 [[1; 2; 3]; [4; 5; 6]]%float) "" None in
  timestamps c = Some (PyList [5; 3600000005; 7200000005])
  /\ features c = [("A", [1; 2; 3]%float); ("B", [4; 5; 6]%float)].
Proof.
  intros train.
  assert (Hwf : dict_wf (features train)).
  { vm_compute. apply NoDup_cons. split.
    - rewrite list_elem_of_singleton. discriminate.
    - apply NoDup_singleton. }
  assert (Hrect : rectangular (mkNdarray2 3 [[1; 2; 3]; [4; 5; 6]]%float)).
  { unfold rectangular. simpl. repeat constructor. }
  destruct (timesfm_predictions_to_timeseries_rows 5 train
              (mkNdarray2 3 [[1; 2; 3]; [4; 5; 6]]%float) "" Hwf Hrect)
    as (Hts & Hfs & _).
  split.
  - rewrite Hts. reflexivity.
  - rewrite Hfs. reflexivity.
Defined.

Lemma filter_ext_in {A : Type} (P Q : A -> Prop)
    `{!forall x, Decision (P x), !forall x, Decision (Q x)} (l : list A) :
  (forall x, x ∈ l -> P x <-> Q x) -> filter P l = filter Q l.
Proof.
  induction l as [|x l IHl]; intros Hext; [done|].
  assert (Hl : filter P l = filter Q l).
  { apply IHl. intros y Hy. apply Hext. by apply list_elem_of_further. }
  destruct (decide (P x)) as [HP|HP].
  - rewrite !filter_cons_True; [by rewrite Hl | | done].
    apply Hext; [apply list_elem_of_here | done].
  - rewrite !filter_cons_False; [done | | done].
    intros HQ. apply HP, Hext; [apply list_elem_of_here | done].
Qed.

Lemma keys_dict_update {V : Type} (d : dict V) (kvs : list (string * V)) :
  NoDup kvs.*1 ->
  keys (dict_update d kvs) = keys d ++ filter (fun k => k ∉ keys d) kvs.*1.
Proof.
  revert d. induction kvs as [|[k v] kvs IHk]; intros d Hnd.
  - by rewrite app_nil_r.
  - rewrite fmap_cons in Hnd. cbn [fst] in Hnd.
    apply NoDup_cons in Hnd as [Hk Hnd].
    change (dict_update d ((k, v) :: kvs))
      with (dict_update (dict_set k v d) kvs).
    rewrite IHk by done. rewrite keys_dict_set, fmap_cons. cbn [fst].
    destruct (decide (k ∈ keys d)) as [Hin|Hnin].
    + rewrite filter_cons_False; [done | by intros ?].
    + rewrite filter_cons_True by done. rewrite <- app_assoc. cbn [app].
      do 2 f_equal. apply filter_ext_in. intros x Hx.
      rewrite elem_of_app, list_elem_of_singleton.
      split; [intuition (subst; eauto; congruence)|]. intros Hxd [?| ->]; done.
Qed.

Lemma last_with_key_elem {V : Type} (kvs : list (string * V)) (k : string) (v : V) :
  NoDup kvs.*1 -> (k, v) ∈ kvs -> last_with_key k kvs = Some v.
Proof.
  intros Hnd Hin. apply list_elem_of_split in Hin as (l1 & l2 & ->).
  apply last_with_key_last. intros [k' v'] Hin' Heq. simpl in Heq. subst k'.
  rewrite fmap_app, fmap_cons in Hnd. apply NoDup_app in Hnd as (_ & _ & Hnd).
  apply NoDup_cons in Hnd as [Hk _]. apply Hk. simpl.
  apply list_elem_of_fmap. by exists (k, v').
Qed.

Lemma last_with_key_absent {V : Type} (kvs : list (string * V)) (k : string) :
  k ∉ kvs.*1 -> last_with_key k kvs = None.
Proof.
  intros Hk. unfold last_with_key.
  replace (filter (fun kv : string * V => kv.1 = k) kvs) with (@nil (string * V));
    [done|].
  symmetry. induction kvs as [|[k' v'] kvs IHk]; [done|].
  rewrite fmap_cons, not_elem_of_cons in Hk. destruct Hk as [Hne Hk].
  simpl in Hne. rewrite filter_cons_False; [by apply IHk | simpl; congruence].
Qed.

(** What the assignments of the loop of [timesfm_predictions_to_timeseries]
    make of a dictionary [fs]: a prefixed name that is a key of [fs] gets the
    new row and keeps its position, the other entries stay, the names not yet
    present are appended. *)
Lemma dict_update_prefixed_rows (train_features fs : dict ndarray)
    (prefix : string) (predictions : list ndarray) :
  dict_wf train_features ->
  dict_wf fs ->
  let new := prefixed_rows train_features prefix predictions in
  let fs' := dict_update fs new in
  (forall k v, (k, v) ∈ new -> dict_get k fs' = Some v)
  /\ (forall k, k ∉ new.*1 -> dict_get k fs' = dict_get k fs)
  /\ keys fs' = keys fs ++ filter (fun k => k ∉ keys fs) new.*1
  /\ dict_wf fs'.
Proof.
  intros Hwf Hfs new fs'. subst new fs'.
  pose proof (prefixed_rows_NoDup train_features prefix predictions Hwf) as Hnd.
  split_and!.
  - intros k v Hin. rewrite dict_get_update.
    by rewrite (last_with_key_elem _ k v).
  - intros k Hk. rewrite dict_get_update. by rewrite last_with_key_absent.
  - by apply keys_dict_update.
  - by apply dict_wf_update.
Qed.

(** ** The constructor *)

(** C1, as the code has it. Constructing a [TimeSeries] never fails: the
    constructor stores the timestamps and the series mapping it is given and
    checks neither the lengths of the series nor the order of the
    timestamps. *)
Theorem create_stores_its_arguments
    (ts : option timeseq) (fs : dict ndarray) :
  exists c, create ts fs = Ok c /\ timestamps c = ts /\ features c = fs.
Proof. by exists (mkTimeSeries ts fs). Qed.

Lemma create_accepts_invalid_counterexample :
  (exists c, create (Some (PyList [0; 1; 2; 3])) [("OT", [1; 2; 3]%float)] = Ok c
             /\ ~ shape_ok c)
  /\ (exists c, create (Some (PyList [0; 0; 1])) [("OT", [1; 2; 3]%float)] = Ok c
                /\ timestamps c = Some (PyList [0; 0; 1])
                /\ ~ strictly_increasing [0; 0; 1]).
Proof.
  split.
  - eexists. split; [reflexivity|]. intros (ts & Hts & Hlen).
    injection Hts as <-. apply Forall_cons in Hlen as [Hlen _]. discriminate.
  - eexists. split_and!; [reflexivity | reflexivity |].
    intros [Hlt _]. apply Forall_cons in Hlt as [Hlt _]. lia.
Qed.

(** ** The train split *)

Lemma length_np_less (ts : list datetime) (date : datetime) :
  length (np_less ts date) = length ts.
Proof. unfold np_less. apply length_fmap. Qed.

Lemma length_bool_index {A B : Type} (a : list A) (b : list B)
    (mask : list bool) :
  length a = length mask -> length b = length mask ->
  length (bool_index a mask) = length (bool_index b mask).
Proof.
  revert a b. induction mask as [|m mask IHm]; intros [|x a] [|y b] Ha Hb;
    try done.
  simpl in Ha, Hb. cbn [bool_index]. destruct m; cbn [length]; auto.
Qed.

Lemma bool_index_filter {A : Type} (P : A -> Prop)
    `{!forall x, Decision (P x)} (l : list A) :
  bool_index l ((fun x => bool_decide (P x)) <$> l) = filter P l.
Proof.
  induction l as [|x l IHl]; [done|].
  rewrite fmap_cons. cbn [bool_index]. rewrite IHl.
  destruct (decide (P x)) as [HP|HP].
  - by rewrite bool_decide_true, filter_cons_True.
  - by rewrite bool_decide_false, filter_cons_False.
Qed.

Lemma Forall_dict_set {V : Type} (P : V -> Prop) (d : dict V)
    (k : string) (v : V) :
  Forall (fun kv => P kv.2) d -> P v -> Forall (fun kv => P kv.2) (dict_set k v d).
Proof.
  intros Hd Hv. induction d as [|[k' v'] d IHd]; cbn [dict_set].
  - by apply Forall_singleton.
  - apply Forall_cons in Hd as [Hv' Hd]. case_decide.
    + by apply Forall_cons.
    + apply Forall_cons. auto.
Qed.

Lemma dict_comprehension_Forall (P : ndarray -> Prop)
    (f : ndarray -> result ndarray) (items : list (string * ndarray))
    (acc d' : dict ndarray) :
  (forall a v, f a = Ok v -> P v) ->
  Forall (fun kv => P kv.2) acc ->
  dict_comprehension f items acc = Ok d' ->
  Forall (fun kv => P kv.2) d'.
Proof.
  intros Hf. revert acc.
  induction items as [|[name feature] items IHi]; intros acc Hacc Hres.
  - by injection Hres as <-.
  - cbn [dict_comprehension] in Hres.
    destruct (f feature) as [v|e] eqn:Hv; [|done]. cbn [bind] in Hres.
    eapply IHi; [|exact Hres]. apply Forall_dict_set; eauto.
Qed.

Lemma dict_comprehension_fresh (f : ndarray -> result ndarray)
    (g : ndarray -> ndarray) (items : list (string * ndarray))
    (acc : dict ndarray) :
  NoDup items.*1 ->
  (forall k, k ∈ items.*1 -> k ∉ keys acc) ->
  Forall (fun kv => f kv.2 = Ok (g kv.2)) items ->
  dict_comprehension f items acc =
  Ok (acc ++ ((fun kv => (kv.1, g kv.2)) <$> items)).
Proof.
  revert acc. induction items as [|[name feature] items IHi];
    intros acc Hnd Hfresh Hok.
  - by rewrite app_nil_r.
  - rewrite fmap_cons in Hnd. cbn [fst] in Hnd.
    apply NoDup_cons in Hnd as [Hname Hnd].
    apply Forall_cons in Hok as [Hv Hok]. cbn [snd] in Hv.
    cbn [dict_comprehension]. rewrite Hv. cbn [bind].
    rewrite dict_set_fresh by (apply Hfresh; rewrite fmap_cons; apply list_elem_of_here).
    rewrite IHi; [by rewrite <- app_assoc | done | | done].
    intros k Hk. unfold keys. rewrite fmap_app, elem_of_app. cbn.
    rewrite list_elem_of_singleton. intros [Hacc| ->]; [|done].
    eapply Hfresh; [|exact Hacc]. rewrite fmap_cons. by apply list_elem_of_further.
Qed.

Lemma empty_list_cases (s : timeseq) : s = PyList [] \/ s <> PyList [].
Proof. destruct s as [[|t ts]|ts]; [by left | by right | by right]. Qed.

Lemma asarray_less_Ok (s : timeseq) (date : datetime) :
  s <> PyList [] -> asarray_less s date = Ok (np_less (elems s) date).
Proof. intros Hs. by destruct s as [[|t ts]|ts]. Qed.

Lemma asarray_less_inv (s : timeseq) (date : datetime) (mask : list bool) :
  asarray_less s date = Ok mask ->
  s <> PyList [] /\ mask = np_less (elems s) date.
Proof. destruct s as [[|t ts]|ts]; cbn; intros [= <-]; done. Qed.

Lemma getitem_mask_np_less (ts : list datetime) (date : datetime) :
  getitem_mask ts (np_less ts date) = Ok (bool_index ts (np_less ts date)).
Proof. unfold getitem_mask. by rewrite length_np_less, decide_True. Qed.

(** The function on timestamps that are not an empty list: only the series
    can make it raise. *)
Lemma extract_train_dataset_eq (dataset : TimeSeries) (date : datetime)
    (s : timeseq) :
  timestamps dataset = Some s ->
  s <> PyList [] ->
  extract_train_dataset dataset date =
  (fs' <~ dict_comprehension
            (fun feature => getitem_mask feature (np_less (elems s) date))
            (features dataset) [] ;;
   Ok (mkTimeSeries
         (Some (Array (bool_index (elems s) (np_less (elems s) date)))) fs')).
Proof.
  intros Hts Hs. unfold extract_train_dataset. rewrite Hts.
  rewrite asarray_less_Ok by done. cbn [bind].
  by rewrite getitem_mask_np_less.
Qed.

Lemma extract_train_dataset_empty_list (dataset : TimeSeries) (date : datetime) :
  timestamps dataset = Some (PyList []) ->
  extract_train_dataset dataset date = Raise TypeError.
Proof. intros Hts. unfold extract_train_dataset. by rewrite Hts. Qed.

Lemma extract_train_dataset_valid (dataset : TimeSeries) (date : datetime)
    (s : timeseq) :
  timestamps dataset = Some s ->
  s <> PyList [] ->
  Forall (fun kv => length kv.2 = length (elems s)) (features dataset) ->
  dict_wf (features dataset) ->
  extract_train_dataset dataset date =
  Ok (mkTimeSeries (Some (Array (filter (fun t => t < date) (elems s))))
        ((fun kv => (kv.1, bool_index kv.2 (np_less (elems s) date)))
           <$> features dataset)).
Proof.
  intros Hts Hs Hlen Hwf. rewrite (extract_train_dataset_eq _ _ s) by done.
  rewrite (dict_comprehension_fresh _
             (fun feature => bool_index feature (np_less (elems s) date))).
  - cbn [bind app]. unfold np_less at 1. by rewrite bool_index_filter.
  - done.
  - intros k _. apply not_elem_of_nil.
  - eapply Forall_impl; [exact Hlen|]. intros [k v] Hv. cbn [snd] in *.
    unfold getitem_mask. rewrite decide_True; [done|].
    unfold np_less. by rewrite length_fmap.
Qed.

Lemma dict_comprehension_is_Ok (f : ndarray -> result ndarray)
    (items : list (string * ndarray)) (acc : dict ndarray) :
  Forall (fun kv => is_Ok (f kv.2)) items ->
  is_Ok (dict_comprehension f items acc).
Proof.
  revert acc. induction items as [|[name feature] items IHi]; intros acc Hok.
  - by exists acc.
  - apply Forall_cons in Hok as [[v Hv] Hok]. cbn [snd] in Hv.
    cbn [dict_comprehension]. rewrite Hv. cbn [bind]. by apply IHi.
Qed.

Lemma Forall_dict_update {V : Type} (P : V -> Prop) (d : dict V)
    (kvs : list (string * V)) :
  Forall (fun kv => P kv.2) d -> Forall (fun kv => P kv.2) kvs ->
  Forall (fun kv => P kv.2) (dict_update d kvs).
Proof.
  revert d. induction kvs as [|[k v] kvs IHk]; intros d Hd Hkvs; [done|].
  apply Forall_cons in Hkvs as [Hv Hkvs].
  change (dict_update d ((k, v) :: kvs)) with (dict_update (dict_set k v d) kvs).
  apply IHk; [|done]. by apply Forall_dict_set.
Qed.

Lemma extract_train_dataset_shape_ok (dataset : TimeSeries) (date : datetime)
    (c : TimeSeries) :
  extract_train_dataset dataset date = Ok c -> shape_ok c.
Proof.
  unfold extract_train_dataset.
  destruct (timestamps dataset) as [s|]; [|done].
  destruct (asarray_less s date) as [mask|e] eqn:Hmask; [|done].
  apply asarray_less_inv in Hmask as [_ ->].
  cbn [bind]. rewrite getitem_mask_np_less. cbn [bind].
  destruct (dict_comprehension _ (features dataset) []) as [fs'|e] eqn:Hfs;
    [|done].
  cbn [bind]. intros [= <-]. eexists. split; [done|]. cbn [features elems].
  eapply (dict_comprehension_Forall
            (fun v => length v =
                      length (bool_index (elems s) (np_less (elems s) date))));
    [| |exact Hfs].
  - intros a v. unfold getitem_mask. case_decide as Hlen; [|done].
    intros [= <-]. apply length_bool_index; [done|].
    symmetry. apply length_np_less.
  - apply Forall_nil_2.
Qed.

(** C7, as the code has it. Every container returned by
    [extract_train_dataset] has series of exactly as many values as it has
    timestamps, and a container with that shape whose timestamps are not an
    empty list always has such a slice; the container built by
    [gluon_ds_to_timeseries] has that shape when every record's value
    sequence is as long as the first record's. The constructor itself does
    not establish the shape. *)
Theorem derived_slices_keep_shape (dataset : TimeSeries) (date : datetime) :
  (forall c, extract_train_dataset dataset date = Ok c -> shape_ok c)
  /\ (shape_ok dataset ->
      timestamps dataset <> Some (PyList []) ->
      exists c, extract_train_dataset dataset date = Ok c /\ shape_ok c)
  /\ (forall x rest,
        Forall (fun y => length (target y) = length (target x)) rest ->
        shape_ok (gluon_ds_to_timeseries (x :: rest))).
Proof.
  split_and!.
  - apply extract_train_dataset_shape_ok.
  - intros (s & Hts & Hlen) Hne.
    assert (Hs : s <> PyList []) by congruence.
    assert (Hok : is_Ok (extract_train_dataset dataset date)).
    { rewrite (extract_train_dataset_eq _ _ s) by done.
      destruct (dict_comprehension_is_Ok
                  (fun feature => getitem_mask feature (np_less (elems s) date))
                  (features dataset) []) as [fs' ->].
      - eapply Forall_impl; [exact Hlen|]. intros [k v] Hv. cbn [snd] in *.
        unfold getitem_mask. rewrite decide_True; [by eexists|].
        by rewrite length_np_less.
      - by eexists. }
    destruct Hok as [c Hc]. exists c. split; [done|].
    by eapply extract_train_dataset_shape_ok.
  - intros x rest Hrest. rewrite gluon_ds_to_timeseries_eq.
    eexists. split; [done|]. cbn [features elems].
    rewrite length_fmap, length_range.
    apply (Forall_dict_update (fun v => length v = length (target x)));
      [apply Forall_nil_2|].
    rewrite fmap_cons. apply Forall_cons. split; [done|].
    apply Forall_fmap. eapply Forall_impl; [exact Hrest|]. by intros y Hy.
Qed.

Lemma derived_slices_keep_shape_witness :
  let dataset :=
    mkTimeSeries (Some (PyList [0; 10; 20; 30]))
      [("OT", [10; 20; 30; 40]%float)] in
  exists c, extract_train_dataset dataset 20 = Ok c /\ shape_ok c.
Proof.
  intros dataset.
  apply (derived_slices_keep_shape dataset 20).
  - exists (PyList [0; 10; 20; 30]). split; [reflexivity|].
    apply Forall_singleton. reflexivity.
  - discriminate.
Defined.

Lemma gluon_ds_to_timeseries_shape_counterexample :
  ~ shape_ok (gluon_ds_to_timeseries
                [mkEntry 0 [1; 2]%float "HUFL"; mkEntry 0 [3%float] "OT"]).
Proof.
  intros (ts & Hts & Hlen). vm_compute in Hts. injection Hts as <-.
  vm_compute in Hlen. apply Forall_cons in Hlen as [_ Hlen].
  apply Forall_cons in Hlen as [Hlen _]. discriminate.
Qed.

Lemma filter_above_cutoff (ts : list datetime) (cutoff : datetime) :
  Forall (fun u => cutoff <= u) ts ->
  filter (fun t => t < cutoff) ts = [] /\ filter (fun t => cutoff <= t) ts = ts.
Proof.
  induction ts as [|t ts IHts]; intros Hall; [done|].
  apply Forall_cons in Hall as [Ht Hall]. destruct (IHts Hall) as [Hlt Hge].
  rewrite filter_cons_False by lia. rewrite filter_cons_True by done.
  by rewrite Hlt, Hge.
Qed.

Lemma filter_cutoff_sorted (ts : list datetime) (cutoff : datetime) :
  strictly_increasing ts ->
  filter (fun t => t < cutoff) ts ++ filter (fun t => cutoff <= t) ts = ts.
Proof.
  induction ts as [|t ts IHts]; [done|]. intros [Hlt Hinc].
  destruct (decide (t < cutoff)) as [Ht|Ht].
  - rewrite filter_cons_True by done. rewrite filter_cons_False by lia.
    cbn [app]. by rewrite IHts.
  - destruct (filter_above_cutoff ts cutoff) as [Hnone Hall].
    { eapply Forall_impl; [exact Hlt|]. intros u Hu. simpl in Hu. lia. }
    rewrite filter_cons_False by done. rewrite filter_cons_True by lia.
    by rewrite Hnone, Hall.
Qed.

(** C2, as the code has it. For a valid container whose timestamps are not
    an empty list, and any cutoff time, the train view of
    [extract_train_dataset] holds exactly the timestamps strictly before the
    cutoff, each series filtered index for index by the one boolean mask
    [timestamps < cutoff]; the held-out view holds the remaining timestamps,
    filtered the same way by the complementary mask. The two views share no
    timestamp, every timestamp of the container is in one of them, their
    timestamp counts add up to the container's, and the train timestamps
    followed by the held-out timestamps are the container's timestamps in
    their original order. *)
Theorem split_partitions_timestamps (c : TimeSeries) (cutoff_time : datetime)
    (s : timeseq) :
  valid c ->
  timestamps c = Some s ->
  s <> PyList [] ->
  let ts := elems s in
  let train_ts := filter (fun t => t < cutoff_time) ts in
  let held_ts := filter (fun t => cutoff_time <= t) ts in
  extract_train_dataset c cutoff_time =
    Ok (mkTimeSeries (Some (Array train_ts))
          ((fun kv => (kv.1, bool_index kv.2 (np_less ts cutoff_time)))
             <$> features c))
  /\ held_out_view c cutoff_time =
       mkTimeSeries (Some (Array held_ts))
         ((fun kv => (kv.1, bool_index kv.2
                              ((fun t => bool_decide (cutoff_time <= t)) <$> ts)))
            <$> features c)
  /\ (forall t, t ∈ train_ts -> t ∉ held_ts)
  /\ (forall t, t ∈ ts <-> t ∈ train_ts \/ t ∈ held_ts)
  /\ (length train_ts + length held_ts = length ts)%nat
  /\ train_ts ++ held_ts = ts.
Proof.
  intros ((s1 & Hts1 & Hlen) & Hwf & (s2 & Hts2 & Hinc)) Hts Hs ts train_ts held_ts.
  assert (s1 = s) as -> by congruence.
  assert (s2 = s) as -> by congruence.
  pose proof (filter_cutoff_sorted ts cutoff_time Hinc) as Hcat.
  fold train_ts held_ts in Hcat.
  split_and!.
  - by apply extract_train_dataset_valid.
  - unfold held_out_view, slice_by_time. rewrite Hts. cbn [default fmap option_fmap option_map].
    by rewrite bool_index_filter.
  - intros t [Ht _]%list_elem_of_filter [Ht' _]%list_elem_of_filter. lia.
  - intros t. rewrite <- Hcat at 1. apply elem_of_app.
  - by rewrite <- length_app, Hcat.
  - done.
Qed.

Lemma split_partitions_timestamps_witness :
  let c :=
    mkTimeSeries (Some (PyList [0; 10; 20; 30]))
      [("OT", [10; 20; 30; 40]%float)] in
  extract_train_dataset c 20 =
    Ok (mkTimeSeries (Some (Array [0; 10])) [("OT", [10; 20]%float)])
  /\ held_out_view c 20 =
       mkTimeSeries (Some (Array [20; 30])) [("OT", [30; 40]%float)].
Proof.
  intros c.
  assert (Hvalid : valid c).
  { split_and!.
    - exists (PyList [0; 10; 20; 30]). split; [reflexivity|].
      apply Forall_singleton. reflexivity.
    - unfold dict_wf. simpl. apply NoDup_singleton.
    - exists (PyList [0; 10; 20; 30]). split; [reflexivity|].
      simpl. repeat split; repeat (apply Forall_cons; split); try apply Forall_nil_2; lia. }
  assert (Hs : PyList [0; 10; 20; 30] <> PyList []) by discriminate.
  destruct (split_partitions_timestamps c 20 (PyList [0; 10; 20; 30])
              Hvalid eq_refl Hs)
    as (Htrain & Hheld & _).
  split.
  - etrans; [exact Htrain | reflexivity].
  - etrans; [exact Hheld | reflexivity].
Defined.

(** The container with an empty list of timestamps is valid, and has no
    train view: the comparison of its timestamps with the cutoff raises. *)
Lemma split_empty_list_counterexample :
  let c := mkTimeSeries (Some (PyList [])) [("OT", [])] in
  valid c /\ extract_train_dataset c 0 = Raise TypeError.
Proof.
  intros c. split; [|reflexivity].
  split_and!.
  - exists (PyList []). split; [reflexivity|].
    apply Forall_singleton. reflexivity.
  - unfold dict_wf. simpl. apply NoDup_singleton.
  - by exists (PyList []).
Qed.

(** ** The dictionary objects: what each function allocates and assigns *)

Module StoreFacts.

Lemma alter_lookup (s : Store.store) (l : Store.loc) (d : dict ndarray)
    (f : dict ndarray -> dict ndarray) :
  s !! l = Some d -> alter f l s = <[l := f d]> s.
Proof.
  intros Hl. rewrite <- (insert_id s l d) at 1 by done.
  by rewrite alter_insert_eq.
Qed.

Lemma unchanged_insert_fresh (s : Store.store) (l : Store.loc) (d : dict ndarray) :
  l ∉ dom s -> unchanged s (<[l := d]> s).
Proof.
  intros Hl l' Hl'. rewrite lookup_insert_ne; [done|]. by intros ->.
Qed.

Lemma fresh_not_in (s : Store.store) : fresh (dom s) ∉ dom s.
Proof. apply is_fresh. Qed.

Lemma deref_insert_eq (s : Store.store) (l : Store.loc) (d : dict ndarray) :
  Store.deref (<[l := d]> s) l = d.
Proof. unfold Store.deref. by rewrite lookup_insert_eq. Qed.

Lemma deref_alter_ne (s : Store.store) (l l' : Store.loc)
    (f : dict ndarray -> dict ndarray) :
  l <> l' -> Store.deref (alter f l s) l' = Store.deref s l'.
Proof. intros Hne. unfold Store.deref. by rewrite lookup_alter_ne. Qed.

Lemma gluon_ds_loop_eq (ts : option timeseq) (l : Store.loc)
    (ds : list gluon_entry) (s : Store.store) :
  Store.gluon_ds_loop ts l ds s =
  (Ok (foldl gluon_ds_step (ts, []) ds).1,
   alter (fun d => dict_update d (entry_pair <$> ds)) l s).
Proof.
  revert ts s. induction ds as [|x ds IHds]; intros ts s.
  - cbn. unfold Store.ret. f_equal. symmetry. by apply alter_id.
  - cbn [Store.gluon_ds_loop]. unfold Store.mbind, Store.setitem. rewrite IHds.
    rewrite alter_alter_eq. rewrite !gluon_ds_fold. cbn [foldl fst snd head].
    f_equal. by destruct ts.
Qed.

Lemma gluon_predictions_loop_eq (ts : option timeseq) (l : Store.loc)
    (fs : list gluon_forecast) (s : Store.store) :
  Store.gluon_predictions_loop ts l fs s =
  (Ok (foldl gluon_predictions_step (ts, []) fs).1,
   alter (fun d => dict_update d (forecast_pair <$> fs)) l s).
Proof.
  revert ts s. induction fs as [|x fs IHfs]; intros ts s.
  - cbn. unfold Store.ret. f_equal. symmetry. by apply alter_id.
  - cbn [Store.gluon_predictions_loop]. unfold Store.mbind, Store.setitem. rewrite IHfs.
    rewrite alter_alter_eq. rewrite !gluon_predictions_fold.
    cbn [foldl fst snd head]. f_equal. by destruct ts.
Qed.

Lemma gluon_ds_to_timeseries_store (ds : list gluon_entry) (s : Store.store) :
  Store.gluon_ds_to_timeseries ds s =
  (Ok (Store.mkObj (timestamps (gluon_ds_to_timeseries ds)) (fresh (dom s))),
   <[fresh (dom s) := features (gluon_ds_to_timeseries ds)]> s).
Proof.
  unfold Store.gluon_ds_to_timeseries, Store.mbind, Store.new_dict, Store.ret.
  rewrite gluon_ds_loop_eq, alter_insert_eq.
  unfold gluon_ds_to_timeseries. cbn [timestamps features].
  by rewrite gluon_ds_fold.
Qed.

Lemma gluon_predictions_to_timeseries_store (fs : list gluon_forecast)
    (s : Store.store) :
  Store.gluon_predictions_to_timeseries fs s =
  (Ok (Store.mkObj (timestamps (gluon_predictions_to_timeseries fs)) (fresh (dom s))),
   <[fresh (dom s) := features (gluon_predictions_to_timeseries fs)]> s).
Proof.
  unfold Store.gluon_predictions_to_timeseries, Store.mbind, Store.new_dict, Store.ret.
  rewrite gluon_predictions_loop_eq, alter_insert_eq.
  unfold gluon_predictions_to_timeseries. cbn [timestamps features].
  by rewrite gluon_predictions_fold.
Qed.

Lemma fill_eq (f : ndarray -> result ndarray) (items : list (string * ndarray))
    (dst : Store.loc) (s : Store.store) (acc : dict ndarray) :
  s !! dst = Some acc ->
  match dict_comprehension f items acc with
  | Ok d' => Store.fill f items dst s = (Ok tt, <[dst := d']> s)
  | Raise e => exists d', Store.fill f items dst s = (Raise e, <[dst := d']> s)
  end.
Proof.
  revert s acc. induction items as [|[name feature] items IHi]; intros s acc Hs.
  - cbn. unfold Store.ret. by rewrite insert_id.
  - cbn [dict_comprehension Store.fill]. destruct (f feature) as [v|e]; cbn [bind].
    + unfold Store.mbind, Store.setitem. rewrite (alter_lookup s dst acc) by done.
      specialize (IHi (<[dst := dict_set name v acc]> s) (dict_set name v acc)
                    (lookup_insert_eq _ _ _)).
      destruct (dict_comprehension f items (dict_set name v acc)) as [d'|e].
      * by rewrite IHi, insert_insert_eq.
      * destruct IHi as [d' ->]. exists d'. by rewrite insert_insert_eq.
    + exists acc. unfold Store.raise. by rewrite insert_id.
Qed.

Lemma extract_train_dataset_store (dataset : Store.TimeSeriesObj) (date : datetime)
    (s : Store.store) :
  unchanged s (Store.extract_train_dataset dataset date s).2
  /\ match extract_train_dataset (Store.read s dataset) date with
     | Ok c =>
         Store.extract_train_dataset dataset date s =
         (Ok (Store.mkObj (timestamps c) (fresh (dom s))),
          <[fresh (dom s) := features c]> s)
     | Raise e => (Store.extract_train_dataset dataset date s).1 = Raise e
     end.
Proof.
  unfold Store.extract_train_dataset, extract_train_dataset, Store.read.
  cbn [timestamps features].
  destruct (Store.obj_timestamps dataset) as [ts|]; [|done].
  destruct (asarray_less ts date) as [mask|e] eqn:Hmask; [|done].
  apply asarray_less_inv in Hmask as [_ ->].
  cbn [bind]. rewrite !getitem_mask_np_less. cbn [bind].
  unfold Store.mbind, Store.new_dict.
  pose proof (fill_eq (fun feature => getitem_mask feature (np_less (elems ts) date))
                (Store.deref s (Store.obj_features dataset)) (fresh (dom s))
                (<[fresh (dom s) := []]> s) [] (lookup_insert_eq _ _ _)) as Hfill.
  destruct (dict_comprehension _ (Store.deref s (Store.obj_features dataset)) [])
    as [d'|e]; cbn [bind].
  - rewrite Hfill, insert_insert_eq. unfold Store.ret. cbn [snd timestamps features].
    split; [|done]. apply unchanged_insert_fresh, fresh_not_in.
  - destruct Hfill as [d' ->]. rewrite insert_insert_eq. cbn [fst snd].
    split; [|done]. apply unchanged_insert_fresh, fresh_not_in.
Qed.

Lemma zip_nil_r {A B : Type} (l : list A) : zip l (@nil B) = [].
Proof. by destruct l. Qed.

Lemma zip_loop_eq (train_dataset : Store.TimeSeriesObj) (pos : nat)
    (predictions : list ndarray) (prefix : string) (features : Store.loc)
    (s : Store.store) :
  features <> Store.obj_features train_dataset ->
  Store.zip_loop train_dataset (length (Store.deref s (Store.obj_features train_dataset))) pos
    predictions prefix features s =
  (Ok tt,
   alter (fun d => dict_update d
            ((fun np => (prefix +:+ np.1, np.2))
               <$> zip (drop pos (keys (Store.deref s (Store.obj_features train_dataset))))
                     predictions))
     features s).
Proof.
  intros Hne. revert pos s.
  induction predictions as [|p ps IHp]; intros pos s.
  - rewrite zip_nil_r. cbn. rewrite decide_True by done.
    rewrite alter_id by done. by destruct (_ !! pos) as [[? ?]|].
  - cbn [Store.zip_loop]. rewrite decide_True by done.
    destruct (Store.deref s (Store.obj_features train_dataset) !! pos)
      as [[name v]|] eqn:Hpos.
    + unfold Store.mbind, Store.setitem.
      rewrite <- (deref_alter_ne s features (Store.obj_features train_dataset)
                    (dict_set (prefix +:+ name) p)) at 1 by done.
      rewrite IHp, alter_alter_eq, deref_alter_ne by done.
      rewrite (drop_S _ name pos).
      * done.
      * unfold keys. by rewrite list_lookup_fmap, Hpos.
    + rewrite drop_ge.
      * cbn. by rewrite alter_id.
      * unfold keys. rewrite length_fmap. by apply lookup_ge_None.
Qed.

Lemma timesfm_store_passed (end_of_train : datetime)
    (train_dataset : Store.TimeSeriesObj) (predictions : ndarray2) (prefix : string)
    (l : Store.loc) (s : Store.store) :
  l <> Store.obj_features train_dataset ->
  is_Some (s !! l) ->
  let c := timesfm_predictions_to_timeseries end_of_train (Store.read s train_dataset)
             predictions prefix (Some (Store.deref s l)) in
  Store.timesfm_predictions_to_timeseries end_of_train train_dataset
    predictions prefix (Some l) s =
  (Ok (Store.mkObj (timestamps c) l), <[l := features c]> s).
Proof.
  intros Hne [d Hd] c. subst c.
  unfold Store.timesfm_predictions_to_timeseries, Store.mbind, Store.ret.
  rewrite zip_loop_eq by done. rewrite timesfm_predictions_to_timeseries_eq.
  cbn [timestamps features default Store.read]. rewrite (alter_lookup s l d) by done.
  unfold Store.deref at 2. rewrite Hd. done.
Qed.

Lemma timesfm_store_default (end_of_train : datetime)
    (train_dataset : Store.TimeSeriesObj) (predictions : ndarray2) (prefix : string)
    (s : Store.store) :
  is_Some (s !! Store.obj_features train_dataset) ->
  let c := timesfm_predictions_to_timeseries end_of_train (Store.read s train_dataset)
             predictions prefix None in
  Store.timesfm_predictions_to_timeseries end_of_train train_dataset
    predictions prefix None s =
  (Ok (Store.mkObj (timestamps c) (fresh (dom s))),
   <[fresh (dom s) := features c]> s).
Proof.
  intros Htd c. subst c.
  assert (Hne : fresh (dom s) <> Store.obj_features train_dataset).
  { intros Heq. apply (fresh_not_in s). rewrite Heq. by apply elem_of_dom. }
  unfold Store.timesfm_predictions_to_timeseries, Store.mbind, Store.new_dict, Store.ret.
  rewrite zip_loop_eq by done. rewrite timesfm_predictions_to_timeseries_eq.
  cbn [timestamps features default Store.read]. rewrite alter_insert_eq.
  unfold Store.deref. by rewrite lookup_insert_ne.
Qed.

Lemma zip_loop_frame (train_dataset : Store.TimeSeriesObj) (used pos : nat)
    (predictions : list ndarray) (prefix : string) (features : Store.loc)
    (s : Store.store) (l' : Store.loc) :
  l' <> features ->
  (Store.zip_loop train_dataset used pos predictions prefix features s).2 !! l'
  = s !! l'.
Proof.
  intros Hne. revert pos s. induction predictions as [|p ps IHp]; intros pos s.
  - cbn [Store.zip_loop]. case_decide; [|done].
    by destruct (_ !! pos) as [[? ?]|].
  - cbn [Store.zip_loop]. case_decide; [|done].
    destruct (_ !! pos) as [[name v]|]; [|done].
    unfold Store.mbind, Store.setitem. rewrite IHp.
    by rewrite lookup_alter_ne.
Qed.

Lemma timesfm_store_frame (end_of_train : datetime)
    (train_dataset : Store.TimeSeriesObj) (predictions : ndarray2)
    (prefix : string) (l : Store.loc) (s : Store.store) :
  let r := Store.timesfm_predictions_to_timeseries end_of_train train_dataset
             predictions prefix (Some l) s in
  (forall l', l' <> l -> r.2 !! l' = s !! l')
  /\ (forall o, r.1 = Ok o -> Store.obj_features o = l).
Proof.
  intros r. subst r.
  unfold Store.timesfm_predictions_to_timeseries, Store.mbind, Store.ret.
  pose proof (zip_loop_frame train_dataset
                (length (Store.deref s (Store.obj_features train_dataset))) 0
                (rows predictions) prefix l s) as Hframe.
  destruct (Store.zip_loop _ _ _ _ _ _ _) as [[[]|e] s'];
    cbn [fst snd] in *.
  - split; [done|]. by intros o [= <-].
  - split; [done|]. by intros o.
Qed.

Lemma read_mkObj (s : Store.store) (l : Store.loc) (c : TimeSeries) :
  Store.read (<[l := features c]> s) (Store.mkObj (timestamps c) l) = c.
Proof.
  unfold Store.read. cbn [Store.obj_timestamps Store.obj_features].
  rewrite deref_insert_eq. by destruct c.
Qed.

(** C9, as the code has it. [gluon_ds_to_timeseries],
    [gluon_predictions_to_timeseries], [extract_train_dataset] and
    [timesfm_predictions_to_timeseries] called without [features] put their
    series into a newly created dictionary and leave every existing
    dictionary as it was. [timesfm_predictions_to_timeseries] called with a
    [features] dictionary that is not the dictionary of [train_dataset]
    assigns into that very dictionary and returns a container whose
    [features] is that same object. In each of these cases the container
    read back from the store is the one the value-level function computes.
    Whatever dictionary is passed as [features], also the one of
    [train_dataset], every other dictionary is left as it was, and a
    container that is returned has the passed dictionary as its
    [features]. *)
Theorem containers_fresh_unless_passed (s : Store.store) :
  (forall ds,
     let r := Store.gluon_ds_to_timeseries ds s in
     exists o, r.1 = Ok o /\ (Store.obj_features o ∉ dom s) /\ unchanged s r.2
       /\ Store.read r.2 o = gluon_ds_to_timeseries ds)
  /\ (forall fs,
       let r := Store.gluon_predictions_to_timeseries fs s in
       exists o, r.1 = Ok o /\ (Store.obj_features o ∉ dom s) /\ unchanged s r.2
         /\ Store.read r.2 o = gluon_predictions_to_timeseries fs)
  /\ (forall dataset date,
       let r := Store.extract_train_dataset dataset date s in
       unchanged s r.2
       /\ forall o, r.1 = Ok o ->
            (Store.obj_features o ∉ dom s)
            /\ extract_train_dataset (Store.read s dataset) date
               = Ok (Store.read r.2 o))
  /\ (forall end_of_train train_dataset predictions prefix,
       is_Some (s !! Store.obj_features train_dataset) ->
       let r := Store.timesfm_predictions_to_timeseries end_of_train
                  train_dataset predictions prefix None s in
       exists o, r.1 = Ok o /\ (Store.obj_features o ∉ dom s) /\ unchanged s r.2
         /\ Store.read r.2 o =
            timesfm_predictions_to_timeseries end_of_train
              (Store.read s train_dataset) predictions prefix None)
  /\ (forall end_of_train train_dataset predictions prefix l,
       is_Some (s !! Store.obj_features train_dataset) ->
       is_Some (s !! l) ->
       l <> Store.obj_features train_dataset ->
       let r := Store.timesfm_predictions_to_timeseries end_of_train
                  train_dataset predictions prefix (Some l) s in
       exists o, r.1 = Ok o /\ Store.obj_features o = l
         /\ Store.read r.2 o =
            timesfm_predictions_to_timeseries end_of_train
              (Store.read s train_dataset) predictions prefix
              (Some (Store.deref s l))
         /\ forall l', l' <> l -> r.2 !! l' = s !! l')
  /\ (forall end_of_train train_dataset predictions prefix l,
       let r := Store.timesfm_predictions_to_timeseries end_of_train
                  train_dataset predictions prefix (Some l) s in
       (forall l', l' <> l -> r.2 !! l' = s !! l')
       /\ (forall o, r.1 = Ok o -> Store.obj_features o = l)).
Proof.
  split_and!.
  - intros ds r. subst r. rewrite gluon_ds_to_timeseries_store.
    eexists. split; [done|]. cbn [fst snd Store.obj_features].
    split_and!; [apply fresh_not_in | | apply read_mkObj].
    apply unchanged_insert_fresh, fresh_not_in.
  - intros fs r. subst r. rewrite gluon_predictions_to_timeseries_store.
    eexists. split; [done|]. cbn [fst snd Store.obj_features].
    split_and!; [apply fresh_not_in | | apply read_mkObj].
    apply unchanged_insert_fresh, fresh_not_in.
  - intros dataset date r. subst r.
    destruct (extract_train_dataset_store dataset date s) as [Hun Hres].
    split; [done|]. intros o Ho.
    destruct (extract_train_dataset (Store.read s dataset) date) as [c|e].
    + rewrite Hres in Ho |- *. cbn [fst snd] in Ho |- *.
      injection Ho as <-. cbn [Store.obj_features].
      split; [apply fresh_not_in|]. by rewrite read_mkObj.
    + congruence.
  - intros end_of_train train_dataset predictions prefix Htd r. subst r.
    rewrite timesfm_store_default by done.
    eexists. split; [done|]. cbn [fst snd Store.obj_features].
    split_and!; [apply fresh_not_in | | apply read_mkObj].
    apply unchanged_insert_fresh, fresh_not_in.
  - intros end_of_train train_dataset predictions prefix l Htd Hl Hne r. subst r.
    rewrite timesfm_store_passed by done.
    eexists. split; [done|]. cbn [fst snd Store.obj_features].
    split_and!; [done | apply read_mkObj |].
    intros l' Hl'. by rewrite lookup_insert_ne.
  - intros end_of_train train_dataset predictions prefix l.
    apply timesfm_store_frame.
Qed.

Lemma containers_fresh_unless_passed_witness :
  let s : Store.store :=
    {[1%positive := [("OT_0", [7%float])]; 2%positive := [("HUFL", [9%float])]]} in
  let train := Store.mkObj (Some (PyList [0])) 1%positive in
  let r := Store.timesfm_predictions_to_timeseries 0 train
             (mkNdarray2 1 [[1%float]]) "" (Some 2%positive) s in
  exists o, r.1 = Ok o /\ Store.obj_features o = 2%positive
    /\ Store.read r.2 o =
       timesfm_predictions_to_timeseries 0 (Store.read s train)
         (mkNdarray2 1 [[1%float]]) "" (Some (Store.deref s 2%positive))
    /\ forall l', l' <> 2%positive -> r.2 !! l' = s !! l'.
Proof.
  intros s train.
  destruct (containers_fresh_unless_passed s) as (_ & _ & _ & _ & H & _).
  apply (H 0 train (mkNdarray2 1 [[1%float]]) "" 2%positive).
  - vm_compute. eauto.
  - vm_compute. eauto.
  - vm_compute. discriminate.
Defined.

Lemma timesfm_assigns_into_passed_features_counterexample :
  let s : Store.store :=
    {[1%positive := [("OT_0", [7%float])]; 2%positive := [("HUFL", [9%float])]]} in
  let train := Store.mkObj (Some (PyList [0])) 1%positive in
  let r := Store.timesfm_predictions_to_timeseries 0 train
             (mkNdarray2 1 [[1%float]]) "" (Some 2%positive) s in
  r.1 = Ok (Store.mkObj (Some (PyList [0])) 2%positive)
  /\ Store.deref s 2%positive = [("HUFL", [9%float])]
  /\ Store.deref r.2 2%positive = [("HUFL", [9%float]); ("OT_0", [1%float])].
Proof. vm_compute. done. Qed.

(** C8, as the code has it. When [timesfm_predictions_to_timeseries] is
    given a prefix and an existing [features] dictionary that is not the
    dictionary of [train_dataset] itself, a prefixed name that is already a
    key of the dictionary raises nothing: the call returns a container on
    that same dictionary, in which the new forecast replaces the value
    stored under that key, which keeps its position; the other existing
    series are kept, the names not yet present are appended, and the
    container has one series per distinct identifier. The dictionary of
    [train_dataset] is left as it was. *)
Theorem timesfm_prefix_collision_replaces
    (end_of_train : datetime) (train_dataset : Store.TimeSeriesObj)
    (predictions : ndarray2) (prefix : string) (l : Store.loc)
    (fs : dict ndarray) (s : Store.store) :
  l <> Store.obj_features train_dataset ->
  s !! l = Some fs ->
  dict_wf (Store.deref s (Store.obj_features train_dataset)) ->
  dict_wf fs ->
  let new := prefixed_rows (Store.deref s (Store.obj_features train_dataset))
               prefix (rows predictions) in
  let r := Store.timesfm_predictions_to_timeseries end_of_train train_dataset
             predictions prefix (Some l) s in
  exists o,
    r.1 = Ok o
    /\ Store.obj_features o = l
    /\ (forall k v, (k, v) ∈ new ->
          dict_get k (features (Store.read r.2 o)) = Some v)
    /\ (forall k, k ∉ new.*1 ->
          dict_get k (features (Store.read r.2 o)) = dict_get k fs)
    /\ keys (features (Store.read r.2 o)) =
         keys fs ++ filter (fun k => k ∉ keys fs) new.*1
    /\ dict_wf (features (Store.read r.2 o))
    /\ Store.deref r.2 (Store.obj_features train_dataset) =
         Store.deref s (Store.obj_features train_dataset).
Proof.
  intros Hne Hl Hwf Hfs new r. subst new r.
  rewrite timesfm_store_passed by eauto.
  eexists. split; [done|]. split; [done|].
  cbn [fst snd Store.read Store.obj_features features].
  rewrite deref_insert_eq, timesfm_predictions_to_timeseries_eq.
  cbn [features default Store.read].
  assert (Hfs' : Store.deref s l = fs) by (unfold Store.deref; by rewrite Hl).
  rewrite Hfs'.
  destruct (dict_update_prefixed_rows
              (Store.deref s (Store.obj_features train_dataset)) fs prefix
              (rows predictions) Hwf Hfs) as (Hget & Hold & Hkeys & Hwf').
  split_and!; [done | done | done | done |].
  unfold Store.deref. by rewrite lookup_insert_ne.
Qed.

Lemma timesfm_prefix_collision_replaces_witness :
  let s : Store.store :=
    {[1%positive := [("OT_0", [7%float])]; 2%positive := [("OT_0", [9%float])]]} in
  let train := Store.mkObj (Some (PyList [0])) 1%positive in
  let r := Store.timesfm_predictions_to_timeseries 0 train
             (mkNdarray2 1 [[1%float]]) "" (Some 2%positive) s in
  exists o,
    r.1 = Ok o
    /\ Store.obj_features o = 2%positive
    /\ keys (features (Store.read r.2 o)) = ["OT_0"]
    /\ dict_get "OT_0" (features (Store.read r.2 o)) = Some [1%float].
Proof.
  intros s train r. subst r.
  assert (Hwf : forall v : ndarray, dict_wf [("OT_0", v)]).
  { intros v. unfold dict_wf. simpl. apply NoDup_singleton. }
  destruct (timesfm_prefix_collision_replaces 0 train
              (mkNdarray2 1 [[1%float]]) "" 2%positive [("OT_0", [9%float])] s)
    as (o & Ho & Hl & Hget & _ & Hkeys & _).
  - vm_compute. discriminate.
  - reflexivity.
  - apply Hwf.
  - apply Hwf.
  - exists o. split_and!; [exact Ho | exact Hl | |].
    + etrans; [exact Hkeys | reflexivity].
    + apply Hget. apply list_elem_of_here.
Defined.

Lemma timesfm_prefix_collision_counterexample :
  let s : Store.store :=
    {[1%positive := [("OT_0", [7%float])];
      2%positive := [("run_OT_0", [9%float])]]} in
  let train := Store.mkObj (Some (PyList [0])) 1%positive in
  let r := Store.timesfm_predictions_to_timeseries 0 train
             (mkNdarray2 1 [[1%float]]) "run_" (Some 2%positive) s in
  r.1 = Ok (Store.mkObj (Some (PyList [0])) 2%positive)
  /\ Store.deref r.2 2%positive = [("run_OT_0", [1%float])].
Proof. vm_compute. done. Qed.

(** When the dictionary passed as [features] is the one of [train_dataset]
    itself and the prefix makes new keys, the key iterator of the loop finds
    its dictionary grown and raises. *)
Example timesfm_features_aliasing_train_dataset :
  let s : Store.store :=
    {[1%positive := [("HUFL", [7%float]); ("OT_0", [8%float])]]} in
  let train := Store.mkObj (Some (PyList [0])) 1%positive in
  let r := Store.timesfm_predictions_to_timeseries 0 train
             (mkNdarray2 1 [[1%float]; [2%float]]) "run_" (Some 1%positive) s in
  r.1 = Raise RuntimeError
  /\ Store.deref r.2 1%positive =
     [("HUFL", [7%float]); ("OT_0", [8%float]); ("run_HUFL", [1%float])].
Proof. vm_compute. done. Qed.

End StoreFacts.

(** ** Binary64 arithmetic

    The facts about [PrimFloat] needed for the RMSE, proved from the
    specification of the operations on [spec_float]. *)

Section Binary64.
Local Open Scope float_scope.

Lemma binary_round_aux_sign (s : bool) (m e : Z) (l : location) :
  match binary_round_aux prec emax s m e l with
  | S754_zero s' | S754_infinity s' | S754_finite s' _ _ => s' = s
  | S754_nan => True
  end.
Proof.
  unfold binary_round_aux.
  destruct (shr_fexp prec emax m e l) as [mrs' e'].
  destruct (shr_fexp prec emax _ e' loc_Exact) as [mrs'' e''].
  destruct (shr_m mrs''); [done | | done].
  by destruct (Z.leb e'' (emax - prec)).
Qed.

Lemma SFabs_binary_round_aux (s s' : bool) (m e : Z) (l : location) :
  SFabs (binary_round_aux prec emax s m e l) =
  SFabs (binary_round_aux prec emax s' m e l).
Proof.
  unfold binary_round_aux.
  destruct (shr_fexp prec emax m e l) as [mrs' e'].
  destruct (shr_fexp prec emax _ e' loc_Exact) as [mrs'' e''].
  destruct (shr_m mrs''); [done | | done].
  by destruct (Z.leb e'' (emax - prec)).
Qed.

Lemma SFabs_binary_normalize_opp (m e : Z) :
  SFabs (binary_normalize prec emax (- m) e false) =
  SFabs (binary_normalize prec emax m e false).
Proof.
  destruct m as [|p|p]; [done | |];
    [change (- Z.pos p)%Z with (Z.neg p) | change (- Z.neg p)%Z with (Z.pos p)];
    unfold binary_normalize, binary_round;
    destruct (shl_align p e _) as [mz ez]; apply SFabs_binary_round_aux.
Qed.

Lemma SFabs_sub_comm (x y : spec_float) :
  SFabs (SFsub prec emax x y) = SFabs (SFsub prec emax y x).
Proof.
  destruct x as [sx|sx| |sx mx ex], y as [sy|sy| |sy my ey];
    try (by destruct sx, sy); try done.
  cbn [SFsub]. rewrite (Z.min_comm ey ex).
  rewrite <- SFabs_binary_normalize_opp. f_equal. f_equal. lia.
Qed.

Lemma SFmul_abs (x y : spec_float) :
  SFabs x = SFabs y -> SFmul prec emax x x = SFmul prec emax y y.
Proof.
  destruct x as [sx|sx| |sx mx ex], y as [sy|sy| |sy my ey]; try done;
    cbn [SFabs SFmul]; intros [= ]; subst; by destruct sx, sy.
Qed.

Lemma square_sub_comm (x y : float) :
  (x - y) * (x - y) = (y - x) * (y - x).
Proof.
  apply Prim2SF_inj. rewrite !mul_spec, !sub_spec.
  apply SFmul_abs, SFabs_sub_comm.
Qed.

Lemma sqrt_not_negative (x : float) : (sqrt x <? 0) = false.
Proof.
  rewrite ltb_spec, sqrt_spec. change (Prim2SF 0) with (S754_zero false).
  unfold SF64sqrt, SFsqrt.
  destruct (Prim2SF x) as [s|[]| |[] m e]; try done.
  destruct (SFsqrt_core_binary prec emax (Z.pos m) e) as [[mz ez] lz].
  pose proof (binary_round_aux_sign false mz ez lz) as Hs.
  destruct (binary_round_aux prec emax false mz ez lz) as [s'|s'| |s' m' e'];
    subst; done.
Qed.

Lemma is_finite_cases (x : float) :
  is_finite x = true ->
  match Prim2SF x with
  | S754_zero _ | S754_finite _ _ _ => True
  | _ => False
  end.
Proof.
  unfold is_finite, is_nan, is_infinity.
  rewrite !FloatAxioms.eqb_spec, abs_spec. change (Prim2SF infinity) with (S754_infinity false).
  destruct (Prim2SF x) as [s|s| |s m e]; try (intros _; exact I).
  - destruct s; cbn; discriminate.
  - cbn. discriminate.
Qed.

Lemma sub_diag_finite (x : float) : is_finite x = true -> x - x = 0.
Proof.
  intros Hfin%is_finite_cases. apply Prim2SF_inj. rewrite sub_spec.
  change (Prim2SF 0) with (S754_zero false).
  destruct (Prim2SF x) as [s|s| |s m e]; try done.
  - by destruct s.
  - unfold SF64sub. cbn [SFsub]. by rewrite Z.sub_diag.
Qed.

Local Open Scope Z_scope.

Lemma digits2_pos_size (p : positive) : digits2_pos p = Pos.size p.
Proof. induction p as [p IHp|p IHp|]; simpl; by rewrite ?IHp. Qed.

Lemma Zdigits2_log2 (m : Z) : 0 < m -> Zdigits2 m = Z.log2 m + 1.
Proof.
  destruct m as [|p|p]; [lia | | lia]. intros _.
  unfold Zdigits2. rewrite digits2_pos_size.
  destruct p as [p|p|]; simpl; lia.
Qed.

Lemma shr_1_m (mrs : shr_record) :
  0 <= shr_m mrs -> shr_m (shr_1 mrs) = shr_m mrs / 2.
Proof.
  destruct mrs as [m r s]. cbn [shr_m]. intros Hm.
  rewrite <- Z.div2_div. destruct m as [|[p|p|]|p]; try done; lia.
Qed.

Lemma pow2_xO (p : positive) : 2 ^ Z.pos p~0 = 2 ^ Z.pos p * 2 ^ Z.pos p.
Proof.
  replace (Z.pos p~0) with (Z.pos p + Z.pos p) by lia.
  apply Z.pow_add_r; lia.
Qed.

Lemma pow2_xI (p : positive) :
  2 ^ Z.pos p~1 = 2 * (2 ^ Z.pos p * 2 ^ Z.pos p).
Proof.
  replace (Z.pos p~1) with (1 + (Z.pos p + Z.pos p)) by lia.
  rewrite !Z.pow_add_r by lia. done.
Qed.

Lemma iter_pos_shr_1_m (p : positive) (mrs : shr_record) :
  0 <= shr_m mrs ->
  shr_m (SpecFloat.iter_pos shr_1 p mrs) = shr_m mrs / 2 ^ Z.pos p.
Proof.
  revert mrs. induction p as [p IHp|p IHp|]; intros mrs Hm;
    cbn [SpecFloat.iter_pos].
  - assert (H1 : 0 <= shr_m (shr_1 mrs)).
    { rewrite shr_1_m by done. apply Z.div_pos; lia. }
    assert (H2 : 0 <= shr_m (SpecFloat.iter_pos shr_1 p (shr_1 mrs))).
    { rewrite IHp by done. apply Z.div_pos; lia. }
    rewrite IHp, IHp, shr_1_m by done.
    rewrite !Z.div_div by lia. by rewrite pow2_xI, !Z.mul_assoc.
  - assert (H2 : 0 <= shr_m (SpecFloat.iter_pos shr_1 p mrs)).
    { rewrite IHp by done. apply Z.div_pos; lia. }
    rewrite IHp, IHp by done. rewrite Z.div_div by lia. by rewrite pow2_xO.
  - rewrite shr_1_m by done. done.
Qed.

Lemma shr_m_of_loc (m : Z) (l : location) : shr_m (shr_record_of_loc m l) = m.
Proof. by destruct l as [|[]]. Qed.

Lemma shr_fexp_pos (m e : Z) (l : location) :
  0 < m -> SpecFloat.emin prec emax <= Zdigits2 m + e - prec ->
  0 < shr_m (shr_fexp prec emax m e l).1
  /\ Zdigits2 (shr_m (shr_fexp prec emax m e l).1) + (shr_fexp prec emax m e l).2
     = Zdigits2 m + e.
Proof.
  intros Hm Hmin. unfold shr_fexp, shr.
  assert (Hn : fexp prec emax (Zdigits2 m + e) - e = Zdigits2 m - prec).
  { unfold fexp. lia. }
  rewrite Hn. pose proof (Zdigits2_log2 m Hm) as Hd.
  destruct (Zdigits2 m - prec) as [|n|n] eqn:Hshift; cbn [fst snd];
    rewrite ?shr_m_of_loc; try done.
  rewrite iter_pos_shr_1_m by (rewrite shr_m_of_loc; lia).
  rewrite shr_m_of_loc.
  pose proof (Z.log2_spec m Hm) as [Hlo _].
  assert (Hpow : 2 ^ Z.pos n <= m).
  { etrans; [|exact Hlo]. apply Z.pow_le_mono_r; [lia|]. unfold prec in *. lia. }
  assert (Hq : 0 < m / 2 ^ Z.pos n).
  { apply Z.div_str_pos. split; [|done]. apply Z.pow_pos_nonneg; lia. }
  split; [done|]. rewrite Zdigits2_log2 by done.
  rewrite <- Z.shiftr_div_pow2, Z.log2_shiftr by lia. unfold prec in *. lia.
Qed.

Lemma round_nearest_even_bounds (m : Z) (l : location) :
  m <= round_nearest_even m l <= m + 1.
Proof. destruct l as [|[]]; cbn; try lia. destruct (Z.even m); lia. Qed.

Lemma binary_round_aux_pos (m e : Z) (l : location) :
  0 < m -> SpecFloat.emin prec emax <= Zdigits2 m + e - prec ->
  match binary_round_aux prec emax false m e l with
  | S754_finite false _ _ | S754_infinity false => True
  | _ => False
  end.
Proof.
  intros Hm Hmin. unfold binary_round_aux.
  destruct (shr_fexp_pos m e l Hm Hmin) as [Hpos Hdig].
  destruct (shr_fexp prec emax m e l) as [mrs' e']. cbn [fst snd] in Hpos, Hdig.
  pose proof (round_nearest_even_bounds (shr_m mrs') (loc_of_shr_record mrs'))
    as Hround.
  set (m2 := round_nearest_even (shr_m mrs') (loc_of_shr_record mrs')) in *.
  assert (Hm2 : 0 < m2) by lia.
  assert (Hmin2 : SpecFloat.emin prec emax <= Zdigits2 m2 + e' - prec).
  { rewrite Zdigits2_log2 by done. rewrite Zdigits2_log2 in Hdig by done.
    pose proof (Z.log2_le_mono (shr_m mrs') m2). lia. }
  destruct (shr_fexp_pos m2 e' loc_Exact Hm2 Hmin2) as [Hpos2 _].
  destruct (shr_fexp prec emax m2 e' loc_Exact) as [mrs'' e'']. cbn [fst] in Hpos2.
  destruct (shr_m mrs''); [lia | | lia].
  by destruct (Z.leb e'' (emax - prec)).
Qed.

Lemma binary_normalize_pos (p : positive) :
  match binary_normalize prec emax (Z.pos p) 0 false with
  | S754_finite false _ _ | S754_infinity false => True
  | _ => False
  end.
Proof.
  unfold binary_normalize, binary_round, shl_align.
  assert (Hd : 0 < Z.pos (digits2_pos p)) by lia.
  destruct (fexp prec emax (Z.pos (digits2_pos p) + 0) - 0) eqn:Hsub;
    apply binary_round_aux_pos; try lia;
    unfold Zdigits2, SpecFloat.emin, fexp, prec, emax in *; lia.
Qed.

Lemma float_of_nat_pos (n : nat) :
  (0 < n)%nat -> Z.of_nat n < 2 ^ 63 ->
  match Prim2SF (float_of_nat n) with
  | S754_finite false _ _ | S754_infinity false => True
  | _ => False
  end.
Proof.
  intros Hpos Hlt. unfold float_of_nat. rewrite of_uint63_spec.
  rewrite Uint63.of_Z_spec. change Uint63.wB with (2 ^ 63).
  rewrite Z.mod_small by lia.
  destruct (Z.of_nat n) as [|p|p] eqn:Hn; [lia | | lia].
  apply binary_normalize_pos.
Qed.

Lemma div_zero_count (n : nat) :
  (0 < n)%nat -> Z.of_nat n < 2 ^ 63 ->
  (0 / float_of_nat n)%float = 0%float.
Proof.
  intros Hpos Hlt. apply Prim2SF_inj. rewrite div_spec.
  change (Prim2SF 0) with (S754_zero false).
  pose proof (float_of_nat_pos n Hpos Hlt) as Hn.
  by destruct (Prim2SF (float_of_nat n)) as [s|[]| |[] m e].
Qed.

End Binary64.

(** ** The RMSE *)

Lemma np_sub_same_length (a b : ndarray) :
  length a = length b -> np_sub a b = Ok (zip_with PrimFloat.sub a b).
Proof. intros Hlen. unfold np_sub. by rewrite decide_True. Qed.

Lemma np_square_sub_comm (a b : ndarray) :
  np_square (zip_with PrimFloat.sub a b) = np_square (zip_with PrimFloat.sub b a).
Proof.
  unfold np_square. revert b.
  induction a as [|x a IHa]; intros [|y b]; try done.
  cbn [zip_with]. rewrite !fmap_cons, IHa. f_equal. apply square_sub_comm.
Qed.

Lemma np_square_broadcast_comm (x : float) (b : ndarray) :
  np_square ((fun y => PrimFloat.sub x y) <$> b) =
  np_square ((fun y => PrimFloat.sub y x) <$> b).
Proof.
  unfold np_square. rewrite <- !list_fmap_compose.
  apply list_fmap_ext. intros i y _. apply square_sub_comm.
Qed.

Lemma rmse_comm (a b : ndarray) : rmse a b = rmse b a.
Proof.
  unfold rmse, np_sub.
  destruct (decide (length a = length b)) as [Hlen|Hlen].
  - rewrite (decide_True (P := length b = length a)) by done.
    cbn [bind]. by rewrite np_square_sub_comm.
  - rewrite (decide_False (P := length b = length a)) by done.
    destruct a as [|x [|x' a]], b as [|y [|y' b]]; try done; cbn [bind];
      by rewrite np_square_broadcast_comm.
Qed.

Lemma np_sum_zeros (n : nat) : np_sum (replicate n 0%float) = 0%float.
Proof.
  unfold np_sum. induction n as [|n IHn]; [done|].
  cbn [replicate foldl]. exact IHn.
Qed.

Lemma np_square_sub_self (x : ndarray) :
  Forall (fun v => is_finite v = true) x ->
  np_square (zip_with PrimFloat.sub x x) = replicate (length x) 0%float.
Proof.
  unfold np_square. induction 1 as [|v x Hv _ IHx]; [done|].
  cbn [zip_with length replicate]. rewrite fmap_cons, IHx.
  by rewrite sub_diag_finite.
Qed.

Lemma rmse_self (x : ndarray) :
  x <> [] -> Z.of_nat (length x) < 2 ^ 63 ->
  Forall (fun v => is_finite v = true) x ->
  rmse x x = Ok 0%float.
Proof.
  intros Hne Hlen Hfin. unfold rmse. rewrite np_sub_same_length by done.
  cbn [bind]. rewrite np_square_sub_self by done.
  unfold np_mean. rewrite np_sum_zeros, length_replicate.
  rewrite div_zero_count; [done | | done].
  destruct x; [done | simpl; lia].
Qed.

Lemma length_tail_slice {A : Type} (a : list A) (k : nat) :
  (0 < k <= length a)%nat -> length (tail_slice a k) = k.
Proof.
  intros [Hpos Hle]. destruct k as [|k]; [lia|].
  unfold tail_slice. rewrite length_drop. lia.
Qed.

(** The evaluation step of the sweep is the RMSE of the forecast of "OT_0"
    against the last values of the reference series. *)
Lemma evaluate_eq (predictions dataset : TimeSeries) (p ot : ndarray) :
  dict_get "OT_0" (features predictions) = Some p ->
  dict_get "OT_0" (features dataset) = Some ot ->
  evaluate predictions dataset = rmse p (tail_slice ot (length p)).
Proof. intros Hp Hot. unfold evaluate, dict_getitem. by rewrite Hp, Hot. Qed.

(** The scenario [rmse([5,5,5], [4,6,5]) = sqrt(2/3)]. *)
Example rmse_scenario :
  rmse [5; 5; 5]%float [4; 6; 5]%float = Ok (sqrt (2 / 3))%float.
Proof. reflexivity. Qed.

(** C3, as the code has it. The RMSE computation raises ([ValueError], from
    the subtraction of the two arrays) exactly when the two sequences have
    different lengths and neither has length one; lengths 3 and 4 raise. A
    sequence of length one is broadcast against the other, and a number is
    returned. *)
Theorem rmse_shape_error (a b : ndarray) :
  (length a <> length b -> length a <> 1%nat -> length b <> 1%nat ->
   rmse a b = Raise ValueError)
  /\ (length a = length b \/ length a = 1%nat \/ length b = 1%nat ->
      is_Ok (rmse a b))
  /\ (length a = 3%nat -> length b = 4%nat -> rmse a b = Raise ValueError).
Proof.
  assert (Hraise : length a <> length b -> length a <> 1%nat ->
                   length b <> 1%nat -> rmse a b = Raise ValueError).
  { intros Hne Ha Hb. unfold rmse, np_sub. rewrite decide_False by done.
    by destruct a as [|x [|x' a]], b as [|y [|y' b]]. }
  split_and!.
  - exact Hraise.
  - unfold rmse, np_sub.
    destruct (decide (length a = length b)) as [Hlen|Hlen]; [by eexists|].
    intros [?|[Ha|Hb]]; [done | |].
    + destruct a as [|x [|x' a]]; try done. by eexists.
    + destruct b as [|y [|y' b]]; try done.
      destruct a as [|x [|x' a]]; by eexists.
  - intros Ha Hb. apply Hraise; lia.
Qed.

Lemma rmse_shape_error_witness :
  rmse [5; 5; 5]%float [4; 6; 5; 7]%float = Raise ValueError.
Proof.
  apply (rmse_shape_error [5; 5; 5]%float [4; 6; 5; 7]%float); reflexivity.
Defined.

Lemma rmse_broadcast_counterexample :
  length [2%float] <> length [1; 2; 3; 4]%float
  /\ exists r, rmse [2%float] [1; 2; 3; 4]%float = Ok r.
Proof. split; [discriminate|]. eexists. reflexivity. Qed.

(** C4, as the code has it. For sequences of equal length the RMSE
    computation returns [sqrt(mean((a[i]-b[i])^2))], evaluated in binary64
    arithmetic. The result is never below zero (it is non-negative or NaN);
    [rmse(a,b)] and [rmse(b,a)] are the same value; and [rmse(x,x)] is 0 for
    every non-empty [x] whose elements are all finite. *)
Theorem rmse_properties (a b : ndarray) :
  length a = length b ->
  rmse a b = Ok (sqrt (np_mean (np_square (zip_with PrimFloat.sub a b))))
  /\ (forall r, rmse a b = Ok r -> (r <? 0)%float = false)
  /\ rmse a b = rmse b a
  /\ (a = b -> a <> [] -> Z.of_nat (length a) < 2 ^ 63 ->
      Forall (fun v => is_finite v = true) a -> rmse a b = Ok 0%float).
Proof.
  intros Hlen.
  assert (Heq : rmse a b =
                Ok (sqrt (np_mean (np_square (zip_with PrimFloat.sub a b))))).
  { unfold rmse. by rewrite np_sub_same_length. }
  split_and!.
  - exact Heq.
  - intros r Hr. rewrite Heq in Hr. injection Hr as <-. apply sqrt_not_negative.
  - apply rmse_comm.
  - intros <- Hne Hn Hfin. by apply rmse_self.
Qed.

Lemma rmse_properties_witness :
  rmse [5; 5; 5]%float [4; 6; 5]%float = rmse [4; 6; 5]%float [5; 5; 5]%float
  /\ rmse [1; 2]%float [1; 2]%float = Ok 0%float.
Proof.
  split.
  - apply (rmse_properties [5; 5; 5]%float [4; 6; 5]%float). reflexivity.
  - apply (rmse_properties [1; 2]%float [1; 2]%float); try reflexivity.
    + discriminate.
    + repeat constructor.
Defined.

Lemma rmse_zero_not_identical_counterexample :
  (rmse [0x1p-600%float] [0%float] = Ok 0%float
   /\ [0x1p-600%float] <> [0%float])
  /\ (rmse [infinity] [infinity] = Ok nan
      /\ PrimFloat.eqb nan 0 = false).
Proof.
  split; [split | split]; try reflexivity. discriminate.
Qed.

(** * Further properties of the notebook's code *)

(** ** [extract_train_dataset]: outcomes, composition, edge cases *)

Lemma dict_comprehension_mask_raise (mask : list bool)
    (items : list (string * ndarray)) (acc : dict ndarray) :
  ~ Forall (fun kv => length kv.2 = length mask) items ->
  dict_comprehension (fun feature => getitem_mask feature mask) items acc =
  Raise IndexError.
Proof.
  revert acc. induction items as [|[name feature] items IHi]; intros acc Hbad.
  - destruct Hbad. apply Forall_nil_2.
  - cbn [dict_comprehension]. unfold getitem_mask at 1.
    destruct (decide (length mask = length feature)) as [Hlen|Hlen]; [|done].
    cbn [bind]. apply IHi. intros Hall. apply Hbad.
    apply Forall_cons. split; [by cbn|done].
Qed.

Lemma dict_comprehension_mask_ok (mask : list bool)
    (items : list (string * ndarray)) (acc : dict ndarray) :
  Forall (fun kv => length kv.2 = length mask) items ->
  is_Ok (dict_comprehension (fun feature => getitem_mask feature mask) items acc).
Proof.
  intros Hall. apply dict_comprehension_is_Ok.
  eapply Forall_impl; [exact Hall|]. intros [k v] Hv. cbn [snd] in *.
  unfold getitem_mask. rewrite decide_True by done. by eexists.
Qed.

Lemma extract_train_dataset_shape_source (dataset : TimeSeries)
    (date : datetime) (c : TimeSeries) :
  extract_train_dataset dataset date = Ok c ->
  exists s, timestamps dataset = Some s
    /\ s <> PyList []
    /\ Forall (fun kv => length kv.2 = length (elems s)) (features dataset).
Proof.
  intros Hc.
  destruct (timestamps dataset) as [s|] eqn:Hts;
    [|by unfold extract_train_dataset in Hc; rewrite Hts in Hc].
  destruct (empty_list_cases s) as [->|Hs];
    [by rewrite extract_train_dataset_empty_list in Hc|].
  exists s. split_and!; [done | done |].
  destruct (decide (Forall (fun kv : string * ndarray =>
                              length kv.2 = length (elems s))
                      (features dataset))) as [Hall|Hbad]; [done|].
  rewrite (extract_train_dataset_eq _ _ s) in Hc by done.
  rewrite dict_comprehension_mask_raise in Hc; [done|].
  intros Hall. apply Hbad. eapply Forall_impl; [exact Hall|].
  intros kv Hkv. cbn in *. by rewrite length_np_less in Hkv.
Qed.

(** X1. [extract_train_dataset] has three outcomes. It raises [TypeError]
    exactly when the dataset's timestamps are [None] or an empty list; it
    raises [IndexError] exactly when the timestamps are neither and some
    series does not have as many values as there are timestamps; it returns
    a container exactly when the timestamps are neither and every series
    has. *)
Theorem extract_train_dataset_outcome (dataset : TimeSeries) (date : datetime) :
  (extract_train_dataset dataset date = Raise TypeError
   <-> timestamps dataset = None \/ timestamps dataset = Some (PyList []))
  /\ (extract_train_dataset dataset date = Raise IndexError
      <-> exists s, timestamps dataset = Some s /\ s <> PyList []
            /\ ~ Forall (fun kv => length kv.2 = length (elems s))
                   (features dataset))
  /\ (is_Ok (extract_train_dataset dataset date)
      <-> shape_ok dataset /\ timestamps dataset <> Some (PyList []))
  /\ (is_Ok (extract_train_dataset dataset date)
      \/ extract_train_dataset dataset date = Raise TypeError
      \/ extract_train_dataset dataset date = Raise IndexError).
Proof.
  unfold shape_ok.
  destruct (timestamps dataset) as [s|] eqn:Hts.
  - destruct (empty_list_cases s) as [->|Hs].
    { rewrite extract_train_dataset_empty_list by done. split_and!.
      - split; [by right|done].
      - split; [done|]. by intros (s & [= <-] & Hs & _).
      - split; [by intros [c Hc] | by intros [_ Hne]].
      - right. by left. }
    rewrite (extract_train_dataset_eq _ _ s) by done.
    destruct (decide (Forall (fun kv : string * ndarray =>
                                length kv.2 = length (elems s))
                        (features dataset))) as [Hall|Hbad].
    + destruct (dict_comprehension_mask_ok (np_less (elems s) date)
                  (features dataset) []) as [fs' Hfs'].
      { eapply Forall_impl; [exact Hall|]. intros kv Hkv. cbn in *.
        by rewrite length_np_less. }
      rewrite Hfs'. cbn [bind]. split_and!.
      * split; [done|]. intros [?|[= ->]]; done.
      * split; [done|]. intros (s' & [= <-] & _ & Hbad). done.
      * split; [|by eexists]. intros _. split; [by exists s|]. congruence.
      * left. by eexists.
    + rewrite dict_comprehension_mask_raise.
      2:{ intros Hall. apply Hbad. eapply Forall_impl; [exact Hall|].
          intros kv Hkv. cbn in *. by rewrite length_np_less in Hkv. }
      cbn [bind]. split_and!.
      * split; [done|]. intros [?|[= ->]]; done.
      * split; [|done]. intros _. by exists s.
      * split; [by intros [c Hc] | ]. intros [(s' & [= <-] & Hall) _]. done.
      * right. by right.
  - assert (Hr : extract_train_dataset dataset date = Raise TypeError).
    { unfold extract_train_dataset. by rewrite Hts. }
    rewrite Hr. split_and!.
    + split; [by left|done].
    + split; [done|]. by intros (s & ? & _).
    + split; [by intros [c Hc] | by intros [(s & ? & _) _]].
    + right. by left.
Qed.

Lemma dict_get_fmap_values {V W : Type} (g : V -> W) (d : dict V) (k : string) :
  dict_get k ((fun kv => (kv.1, g kv.2)) <$> d) = g <$> dict_get k d.
Proof.
  induction d as [|[k' v'] d IHd]; [done|].
  rewrite fmap_cons. cbn [dict_get fst snd]. by case_decide.
Qed.

Lemma extract_train_dataset_Ok_inv (dataset c : TimeSeries) (date : datetime) :
  dict_wf (features dataset) ->
  extract_train_dataset dataset date = Ok c ->
  exists s, timestamps dataset = Some s
    /\ s <> PyList []
    /\ Forall (fun kv => length kv.2 = length (elems s)) (features dataset)
    /\ c = mkTimeSeries (Some (Array (filter (fun t => t < date) (elems s))))
             ((fun kv => (kv.1, bool_index kv.2 (np_less (elems s) date)))
                <$> features dataset).
Proof.
  intros Hwf Hc.
  destruct (extract_train_dataset_shape_source dataset date c Hc)
    as (s & Hts & Hs & Hlen).
  exists s. split_and!; [done | done | done |].
  rewrite (extract_train_dataset_valid dataset date s Hts Hs Hlen Hwf) in Hc.
  by injection Hc as <-.
Qed.

(** X2. A train view keeps the names of the series and their order, and
    each of its series is the dataset's series of that name filtered by the
    mask [timestamps < date]; its timestamps are those before [date], held
    in an array. The timestamps need not be sorted for this. *)
Theorem extract_train_dataset_series (dataset c : TimeSeries) (date : datetime) :
  dict_wf (features dataset) ->
  extract_train_dataset dataset date = Ok c ->
  exists s, timestamps dataset = Some s
    /\ timestamps c = Some (Array (filter (fun t => t < date) (elems s)))
    /\ keys (features c) = keys (features dataset)
    /\ forall k, dict_get k (features c) =
                 (fun v => bool_index v (np_less (elems s) date))
                   <$> dict_get k (features dataset).
Proof.
  intros Hwf Hc.
  destruct (extract_train_dataset_Ok_inv dataset c date Hwf Hc)
    as (s & Hts & _ & _ & ->).
  exists s. cbn [timestamps features]. split_and!; [done | done | |].
  - unfold keys. by rewrite <- list_fmap_compose.
  - intros k.
    apply (dict_get_fmap_values
             (fun v => bool_index v (np_less (elems s) date))).
Qed.

Lemma extract_train_dataset_series_witness :
  let dataset :=
    mkTimeSeries (Some (PyList [30; 0; 20; 10]))
      [("HUFL", [1; 2; 3; 4]%float); ("OT", [10; 20; 30; 40]%float)] in
  exists c, extract_train_dataset dataset 20 = Ok c
    /\ timestamps c = Some (Array [0; 10])
    /\ dict_get "OT" (features c) = Some [20; 40]%float.
Proof.
  intros dataset.
  assert (Hwf : dict_wf (features dataset)).
  { unfold dict_wf. cbn. apply NoDup_cons. split.
    - rewrite list_elem_of_singleton. discriminate.
    - apply NoDup_singleton. }
  eexists. split; [reflexivity|].
  destruct (extract_train_dataset_series dataset _ 20 Hwf eq_refl)
    as (s & Hts & Hts' & _ & Hget).
  injection Hts as <-. split.
  - etrans; [exact Hts' | reflexivity].
  - etrans; [apply Hget | reflexivity].
Defined.

Lemma np_less_cons (t : datetime) (ts : list datetime) (date : datetime) :
  np_less (t :: ts) date = bool_decide (t < date) :: np_less ts date.
Proof. done. Qed.

Lemma bool_index_np_less_twice {A : Type} (v : list A) (ts : list datetime)
    (d1 d2 : datetime) :
  bool_index (bool_index v (np_less ts d1))
    (np_less (filter (fun t => t < d1) ts) d2) =
  bool_index v (np_less ts (Z.min d1 d2)).
Proof.
  revert v. induction ts as [|t ts IHts]; intros v.
  - by destruct v.
  - destruct v as [|x v]; [done|].
    rewrite !np_less_cons. cbn [bool_index].
    destruct (decide (t < d1)) as [H1|H1].
    + rewrite (bool_decide_true (t < d1)) by done.
      rewrite filter_cons_True by done. rewrite np_less_cons. cbn [bool_index].
      destruct (decide (t < d2)) as [H2|H2].
      * rewrite (bool_decide_true (t < d2)) by done.
        rewrite (bool_decide_true (t < Z.min d1 d2)) by lia. by rewrite IHts.
      * rewrite (bool_decide_false (t < d2)) by done.
        rewrite (bool_decide_false (t < Z.min d1 d2)) by lia. apply IHts.
    + rewrite (bool_decide_false (t < d1)) by done.
      rewrite filter_cons_False by done.
      rewrite (bool_decide_false (t < Z.min d1 d2)) by lia. apply IHts.
Qed.

Lemma filter_less_twice (ts : list datetime) (d1 d2 : datetime) :
  filter (fun t => t < d2) (filter (fun t => t < d1) ts) =
  filter (fun t => t < Z.min d1 d2) ts.
Proof.
  rewrite list_filter_filter. apply list_filter_iff. intros t. lia.
Qed.

(** X3. Taking the train view of a train view is taking the train view at
    the earlier of the two dates. *)
Theorem extract_train_dataset_twice (dataset c1 : TimeSeries)
    (d1 d2 : datetime) :
  dict_wf (features dataset) ->
  extract_train_dataset dataset d1 = Ok c1 ->
  extract_train_dataset c1 d2 = extract_train_dataset dataset (Z.min d1 d2).
Proof.
  intros Hwf Hc1.
  destruct (extract_train_dataset_Ok_inv dataset c1 d1 Hwf Hc1)
    as (s & Hts & Hs & Hlen & Hc1eq).
  destruct (extract_train_dataset_shape_ok dataset d1 c1 Hc1)
    as (s1 & Hts1 & Hlen1).
  assert (Hwf1 : dict_wf (features c1)).
  { subst c1. unfold dict_wf, keys. cbn [features].
    by rewrite <- list_fmap_compose. }
  assert (Hs1 : s1 <> PyList []).
  { subst c1. cbn [timestamps] in Hts1. by injection Hts1 as <-. }
  rewrite (extract_train_dataset_valid c1 d2 s1 Hts1 Hs1 Hlen1 Hwf1).
  rewrite (extract_train_dataset_valid dataset (Z.min d1 d2) s Hts Hs Hlen Hwf).
  subst c1. cbn [timestamps features] in *. injection Hts1 as <-.
  cbn [elems]. rewrite filter_less_twice. do 2 f_equal.
  rewrite <- list_fmap_compose. apply list_fmap_ext. intros i [k v] _.
  cbn. f_equal. apply bool_index_np_less_twice.
Qed.

Lemma extract_train_dataset_twice_witness :
  let dataset :=
    mkTimeSeries (Some (PyList [0; 10; 20; 30]))
      [("OT", [10; 20; 30; 40]%float)] in
  let c1 :=
    mkTimeSeries (Some (Array [0; 10; 20])) [("OT", [10; 20; 30]%float)] in
  extract_train_dataset c1 15 = extract_train_dataset dataset (Z.min 25 15).
Proof.
  intros dataset c1.
  apply (extract_train_dataset_twice dataset c1 25 15).
  - unfold dict_wf. cbn. apply NoDup_singleton.
  - reflexivity.
Defined.






Lemma Forall_filter_keep {A : Type} (P Q : A -> Prop)
    `{!forall x, Decision (P x)} (l : list A) :
  Forall Q l -> Forall Q (filter P l).
Proof.
  rewrite !Forall_forall. intros Hall x [_ Hx]%list_elem_of_filter. auto.
Qed.

Lemma strictly_increasing_filter (P : datetime -> Prop)
    `{!forall x, Decision (P x)} (ts : list datetime) :
  strictly_increasing ts -> strictly_increasing (filter P ts).
Proof.
  induction ts as [|t ts IHts]; [done|]. intros [Hlt Hinc].
  destruct (decide (P t)).
  - rewrite filter_cons_True by done. split; [|by apply IHts].
    by apply Forall_filter_keep.
  - rewrite filter_cons_False by done. by apply IHts.
Qed.

(** X5. A valid container whose timestamps are not an empty list has a
    train view, and the view is a valid container: its series have the
    length of its timestamps, its series names are distinct and its
    timestamps strictly increasing. *)
Theorem extract_train_dataset_keeps_valid (dataset : TimeSeries)
    (date : datetime) :
  valid dataset ->
  timestamps dataset <> Some (PyList []) ->
  exists c, extract_train_dataset dataset date = Ok c /\ valid c.
Proof.
  intros ((s & Hts & Hlen) & Hwf & (s' & Hts' & Hinc)) Hne.
  assert (s' = s) as -> by congruence.
  assert (Hs : s <> PyList []) by congruence.
  pose proof (extract_train_dataset_valid dataset date s Hts Hs Hlen Hwf) as Hc.
  eexists. split; [exact Hc|]. split_and!.
  - by eapply extract_train_dataset_shape_ok.
  - unfold dict_wf, keys. cbn [features]. by rewrite <- list_fmap_compose.
  - eexists. split; [done|]. by apply strictly_increasing_filter.
Qed.

Lemma extract_train_dataset_keeps_valid_witness :
  let dataset :=
    mkTimeSeries (Some (PyList [0; 10; 20; 30]))
      [("OT", [10; 20; 30; 40]%float)] in
  exists c, extract_train_dataset dataset 20 = Ok c /\ valid c.
Proof.
  intros dataset. apply (extract_train_dataset_keeps_valid dataset 20).
  - split_and!.
    + exists (PyList [0; 10; 20; 30]). split; [reflexivity|].
      apply Forall_singleton. reflexivity.
    + unfold dict_wf. cbn. apply NoDup_singleton.
    + exists (PyList [0; 10; 20; 30]). split; [reflexivity|]. cbn.
      repeat split; repeat (apply Forall_cons; split; [lia|]); apply Forall_nil_2.
  - discriminate.
Defined.

(** ** The converters: validity of what they build *)

Lemma strictly_increasing_hours_from (start : datetime) (a n : nat) :
  strictly_increasing
    ((fun i => start + timedelta_hours i) <$> (Z.of_nat <$> seq a n)).
Proof.
  revert a. induction n as [|n IHn]; intros a; [done|].
  cbn [seq]. rewrite !fmap_cons. split; [|apply IHn].
  apply Forall_fmap, Forall_fmap, Forall_forall. intros j Hj.
  apply elem_of_seq in Hj. cbn. unfold timedelta_hours. lia.
Qed.

Lemma strictly_increasing_hourly (start : datetime) (n : nat) :
  strictly_increasing (hourly start n).
Proof. apply strictly_increasing_hours_from. Qed.

Lemma length_hourly (start : datetime) (n : nat) : length (hourly start n) = n.
Proof. unfold hourly. by rewrite length_fmap, length_range. Qed.

Lemma gluon_ds_to_timeseries_hourly_valid (x : gluon_entry)
    (rest : list gluon_entry) :
  Forall (fun y => length (target y) = length (target x)) rest ->
  timestamps (gluon_ds_to_timeseries (x :: rest))
    = Some (PyList (hourly (start x) (length (target x))))
  /\ valid (gluon_ds_to_timeseries (x :: rest)).
Proof.
  intros Hrest. rewrite gluon_ds_to_timeseries_eq. split; [done|].
  split_and!.
  - eexists. split; [done|]. cbn [features elems].
    change (length ((fun i => start x + timedelta_hours i)
                      <$> range (length (target x))))
      with (length (hourly (start x) (length (target x)))).
    rewrite length_hourly.
    apply (Forall_dict_update (fun v => length v = length (target x)));
      [apply Forall_nil_2|].
    rewrite fmap_cons. apply Forall_cons. split; [done|].
    apply Forall_fmap. eapply Forall_impl; [exact Hrest|]. by intros y Hy.
  - apply dict_wf_update, NoDup_nil_2.
  - eexists. split; [done|]. apply strictly_increasing_hourly.
Qed.

(** X6. [gluon_ds_to_timeseries] builds a valid container from records
    whose value sequences all have the length of the first record's: the
    series lengths match the timestamps, the series names are distinct, and
    the timestamps, one hour apart, are strictly increasing. *)
Theorem gluon_ds_to_timeseries_valid (x : gluon_entry)
    (rest : list gluon_entry) :
  Forall (fun y => length (target y) = length (target x)) rest ->
  timestamps (gluon_ds_to_timeseries (x :: rest))
    = Some (PyList (hourly (start x) (length (target x))))
  /\ valid (gluon_ds_to_timeseries (x :: rest)).
Proof. apply gluon_ds_to_timeseries_hourly_valid. Qed.

Lemma gluon_ds_to_timeseries_valid_witness :
  valid (gluon_ds_to_timeseries
           [mkEntry 0 [1; 2]%float "HUFL"; mkEntry 5 [3; 4]%float "OT"]).
Proof.
  apply (gluon_ds_to_timeseries_valid (mkEntry 0 [1; 2]%float "HUFL")
           [mkEntry 5 [3; 4]%float "OT"]).
  apply Forall_singleton. reflexivity.
Defined.

Lemma length_prefixed_rows (d : dict ndarray) (prefix : string)
    (predictions : list ndarray) :
  length (prefixed_rows d prefix predictions) =
  (length d `min` length predictions)%nat.
Proof.
  unfold prefixed_rows, keys. by rewrite length_fmap, length_zip_with, length_fmap.
Qed.

Lemma timesfm_default_features (end_of_train : datetime)
    (train_dataset : TimeSeries) (predictions : ndarray2) (prefix : string) :
  dict_wf (features train_dataset) ->
  features (timesfm_predictions_to_timeseries end_of_train train_dataset
              predictions prefix None) =
  prefixed_rows (features train_dataset) prefix (rows predictions).
Proof.
  intros Hwf. rewrite timesfm_predictions_to_timeseries_eq.
  cbn [features default].
  rewrite dict_update_fresh; [done | by apply prefixed_rows_NoDup |].
  intros k _. apply not_elem_of_nil.
Qed.

(** X7. Called without [features] on a rectangular forecast array,
    [timesfm_predictions_to_timeseries] builds a valid container. It has as
    many timestamps as the array has columns, and as many series as the
    smaller of the number of training series and the number of rows: when
    the two numbers differ the surplus is dropped without an error. *)
Theorem timesfm_predictions_to_timeseries_valid
    (end_of_train : datetime) (train_dataset : TimeSeries)
    (predictions : ndarray2) (prefix : string) :
  dict_wf (features train_dataset) ->
  rectangular predictions ->
  let c := timesfm_predictions_to_timeseries end_of_train train_dataset
             predictions prefix None in
  valid c
  /\ timestamps c = Some (PyList (hourly end_of_train (shape1 predictions)))
  /\ length (features c) =
       (length (features train_dataset) `min` length (rows predictions))%nat.
Proof.
  intros Hwf Hrect c. subst c.
  pose proof (timesfm_default_features end_of_train train_dataset predictions
                prefix Hwf) as Hfs.
  assert (Hts : timestamps (timesfm_predictions_to_timeseries end_of_train
                              train_dataset predictions prefix None)
                = Some (PyList (hourly end_of_train (shape1 predictions))))
    by done.
  split_and!.
  - split_and!.
    + eexists. split; [exact Hts|]. cbn [elems]. rewrite Hfs, length_hourly.
      unfold prefixed_rows. apply Forall_fmap, Forall_forall.
      intros [name row] Hin. cbn. apply elem_of_zip_r in Hin.
      unfold rectangular in Hrect. rewrite Forall_forall in Hrect. by apply Hrect.
    + rewrite Hfs. by apply prefixed_rows_NoDup.
    + eexists. split; [exact Hts|]. apply strictly_increasing_hourly.
  - done.
  - rewrite Hfs. apply length_prefixed_rows.
Qed.

Lemma timesfm_predictions_to_timeseries_valid_witness :
  let train :=
    mkTimeSeries (Some (PyList [0])) [("HUFL", [7%float]); ("OT_0", [8%float])] in
  let c := timesfm_predictions_to_timeseries 5 train
             (mkNdarray2 2 [[1; 2]; [3; 4]; [5; 6]]%float) "" None in
  valid c /\ length (features c) = 2%nat.
Proof.
  intros train c. subst c.
  assert (Hwf : dict_wf (features train)).
  { unfold dict_wf. cbn. apply NoDup_cons. split.
    - rewrite list_elem_of_singleton. discriminate.
    - apply NoDup_singleton. }
  assert (Hrect : rectangular (mkNdarray2 2 [[1; 2]; [3; 4]; [5; 6]]%float)).
  { unfold rectangular. cbn. repeat constructor. }
  destruct (timesfm_predictions_to_timeseries_valid 5 train
              (mkNdarray2 2 [[1; 2]; [3; 4]; [5; 6]]%float) "" Hwf Hrect)
    as (Hvalid & _ & Hlen).
  split; [exact Hvalid | exact Hlen].
Defined.

Lemma forecast_pair_keys (fs : list gluon_forecast) :
  (forecast_pair <$> fs).*1 = fc_item_id <$> fs.
Proof. by rewrite <- list_fmap_compose. Qed.

(** X8. [gluon_predictions_to_timeseries] takes the timestamps of the first
    forecast alone, the index it comes with; the series stored under a name is the mean of the last
    forecast with that item id, so the series names are distinct; and when
    the item ids of the forecasts are pairwise distinct the series are the
    means of the forecasts, one per forecast and in their order. *)
Theorem gluon_predictions_to_timeseries_first_forecast
    (x : gluon_forecast) (rest : list gluon_forecast) :
  let c := gluon_predictions_to_timeseries (x :: rest) in
  timestamps c = Some (Array (fc_index x))
  /\ dict_wf (features c)
  /\ (forall k, dict_get k (features c) =
                last_with_key k (forecast_pair <$> x :: rest))
  /\ (NoDup (fc_item_id <$> x :: rest) ->
      features c = forecast_pair <$> x :: rest).
Proof.
  intros c. subst c. rewrite gluon_predictions_to_timeseries_eq.
  cbn [timestamps features]. split_and!.
  - done.
  - apply dict_wf_update, NoDup_nil_2.
  - intros k. rewrite dict_get_update. by destruct (last_with_key _ _).
  - intros Hnd. rewrite dict_update_fresh; [done | by rewrite forecast_pair_keys |].
    intros k _. apply not_elem_of_nil.
Qed.

Lemma gluon_predictions_to_timeseries_first_forecast_witness :
  let x := mkForecast [10; 20] "OT_0" [1; 2]%float in
  let y := mkForecast [30; 40] "OT_1" [3; 4]%float in
  features (gluon_predictions_to_timeseries [x; y]) =
  [("OT_0", [1; 2]%float); ("OT_1", [3; 4]%float)].
Proof.
  intros x y.
  apply (gluon_predictions_to_timeseries_first_forecast x [y]).
  cbn. apply NoDup_cons. split.
  - rewrite list_elem_of_singleton. discriminate.
  - apply NoDup_singleton.
Defined.

(** ** The cut-off dates and the last week *)

Lemma hourly_cons (start : datetime) (n : nat) :
  hourly start (S n) = start :: hourly (start + timedelta_hours 1) n.
Proof.
  unfold hourly, range. cbn [seq]. rewrite !fmap_cons. f_equal.
  - unfold timedelta_hours. lia.
  - rewrite <- fmap_S_seq, <- !list_fmap_compose. apply list_fmap_ext.
    intros i j _. cbn. unfold timedelta_hours. lia.
Qed.

Lemma last_hourly (start : datetime) (n : nat) :
  last (hourly start (S n)) = Some (start + timedelta_hours (Z.of_nat n)).
Proof.
  unfold hourly, range. rewrite !fmap_last, seq_S, last_snoc. done.
Qed.

Lemma drop_hourly (start : datetime) (n m : nat) :
  drop m (hourly start n) =
  hourly (start + timedelta_hours (Z.of_nat m)) (n - m).
Proof.
  unfold hourly, range. rewrite <- !fmap_drop, drop_seq.
  replace (0 + m)%nat with (m + 0)%nat by lia.
  rewrite <- (fmap_add_seq m 0), <- !list_fmap_compose.
  apply list_fmap_ext. intros i j _. cbn. unfold timedelta_hours. lia.
Qed.

Lemma bool_index_hourly {A : Type} (v : list A) (start : datetime)
    (n : nat) (c : Z) :
  bool_index v (np_less (hourly start n) (start + timedelta_hours c)) =
  take (Z.to_nat c `min` n) v.
Proof.
  revert v start c. induction n as [|n IHn]; intros v start c.
  - rewrite Nat.min_0_r. by destruct v.
  - destruct v as [|x v]; [by rewrite take_nil|].
    rewrite hourly_cons, np_less_cons. cbn [bool_index].
    replace (start + timedelta_hours c)
      with (start + timedelta_hours 1 + timedelta_hours (c - 1))
      by (unfold timedelta_hours; lia).
    rewrite IHn.
    destruct (decide (0 < c)) as [Hc|Hc].
    + rewrite bool_decide_true by (unfold timedelta_hours; lia).
      replace (Z.to_nat c) with (S (Z.to_nat (c - 1))) by lia. done.
    + rewrite bool_decide_false by (unfold timedelta_hours; lia).
      replace (Z.to_nat (c - 1)) with 0%nat by lia.
      replace (Z.to_nat c) with 0%nat by lia. done.
Qed.

Lemma filter_hourly (start : datetime) (n : nat) (c : Z) :
  filter (fun t => t < start + timedelta_hours c) (hourly start n) =
  hourly start (Z.to_nat c `min` n).
Proof.
  rewrite <- (bool_index_filter (fun t => t < start + timedelta_hours c)).
  change ((fun x : Z => bool_decide (x < start + timedelta_hours c))
            <$> hourly start n)
    with (np_less (hourly start n) (start + timedelta_hours c)).
  rewrite bool_index_hourly. unfold hourly, range.
  rewrite <- !fmap_take, take_seq. do 3 f_equal. lia.
Qed.

Lemma end_of_data_gluon_cons (x : gluon_entry) (rest : list gluon_entry) :
  target x <> [] ->
  end_of_data (gluon_ds_to_timeseries (x :: rest)) =
  Ok (start x + timedelta_hours (Z.of_nat (length (target x)) - 1)).
Proof.
  intros Hx. rewrite gluon_ds_to_timeseries_eq.
  unfold end_of_data, getitem_last.
  cbn [timestamps head fmap option_fmap option_map elems].
  destruct (target x) as [|v vs] eqn:Hv; [done|]. cbn [length].
  change ((fun i => start x + timedelta_hours i) <$> range (S (length vs)))
    with (hourly (start x) (S (length vs))).
  rewrite last_hourly. do 3 f_equal. lia.
Qed.

(** X9. [end_of_data] on the container built by [gluon_ds_to_timeseries]:
    for an empty dataset the timestamps are [None] and indexing them raises
    [TypeError]; for a first record without values the timestamp list is
    empty and [timestamps[-1]] raises [IndexError]; otherwise it is the
    start of the first record plus one hour for each of its values but the
    first. *)
Theorem end_of_data_gluon (gluon_ds : list gluon_entry) :
  (gluon_ds = [] ->
   end_of_data (gluon_ds_to_timeseries gluon_ds) = Raise TypeError)
  /\ (forall x rest, gluon_ds = x :: rest -> target x = [] ->
      end_of_data (gluon_ds_to_timeseries gluon_ds) = Raise IndexError)
  /\ (forall x rest, gluon_ds = x :: rest -> target x <> [] ->
      end_of_data (gluon_ds_to_timeseries gluon_ds) =
      Ok (start x + timedelta_hours (Z.of_nat (length (target x)) - 1))).
Proof.
  split_and!.
  - by intros ->.
  - intros x rest -> Hx. rewrite gluon_ds_to_timeseries_eq.
    unfold end_of_data. cbn [timestamps head fmap option_fmap option_map elems].
    by rewrite Hx.
  - intros x rest -> Hx. by apply end_of_data_gluon_cons.
Qed.

Lemma end_of_data_gluon_witness :
  end_of_data (gluon_ds_to_timeseries [mkEntry 5 [1; 2; 3]%float "OT"]) =
  Ok (5 + timedelta_hours 2).
Proof.
  destruct (end_of_data_gluon [mkEntry 5 [1; 2; 3]%float "OT"]) as (_ & _ & H).
  apply (H _ [] eq_refl). discriminate.
Defined.

(** X10. Masking the last week. On the container built from records of
    [n >= 1] hourly values each, with [end_of_train] seven days before the
    last timestamp, the train view keeps the first [n - 169] timestamps, in
    an array, and the first [n - 169] values of every series (none when
    [n <= 169]): the cut removes the 168 hours before the last timestamp and
    the last timestamp itself. *)
Theorem train_dataset_without_last_week (x : gluon_entry)
    (rest : list gluon_entry) :
  target x <> [] ->
  Forall (fun y => length (target y) = length (target x)) rest ->
  let dataset := gluon_ds_to_timeseries (x :: rest) in
  let n := length (target x) in
  exists e, end_of_data dataset = Ok e
    /\ extract_train_dataset dataset (end_of_train e) =
       Ok (mkTimeSeries (Some (Array (hourly (start x) (n - 169))))
             ((fun kv => (kv.1, take (n - 169) kv.2)) <$> features dataset)).
Proof.
  intros Hx Hrest dataset n.
  pose proof (end_of_data_gluon_cons x rest Hx) as He. fold dataset in He.
  eexists. split; [exact He|].
  destruct (gluon_ds_to_timeseries_hourly_valid x rest Hrest) as (Hts & Hvalid).
  fold dataset in Hts, Hvalid.
  destruct Hvalid as ((ts & Hts' & Hlen) & Hwf & _).
  rewrite Hts in Hts'. injection Hts' as <-.
  assert (Hne : PyList (hourly (start x) (length (target x))) <> PyList []).
  { destruct (target x) as [|v vs]; [done|]. cbn [length].
    by rewrite hourly_cons. }
  rewrite (extract_train_dataset_valid dataset _ _ Hts Hne Hlen Hwf).
  cbn [elems].
  assert (Hcut : end_of_train
                   (start x + timedelta_hours (Z.of_nat (length (target x)) - 1))
                 = start x + timedelta_hours (Z.of_nat n - 169)).
  { unfold end_of_train, timedelta_days, timedelta_hours. subst n. lia. }
  rewrite Hcut, filter_hourly. fold n.
  replace (Z.to_nat (Z.of_nat n - 169) `min` n)%nat with (n - 169)%nat by lia.
  do 2 f_equal. apply list_fmap_ext. intros i [k v] _. cbn. f_equal.
  rewrite bool_index_hourly. f_equal. lia.
Qed.

Lemma train_dataset_without_last_week_witness :
  let x := mkEntry 0 (replicate 171 1%float) "OT" in
  let dataset := gluon_ds_to_timeseries [x] in
  exists e, end_of_data dataset = Ok e
    /\ extract_train_dataset dataset (end_of_train e) =
       Ok (mkTimeSeries (Some (Array (hourly 0 (171 - 169))))
             ((fun kv => (kv.1, take (171 - 169) kv.2)) <$> features dataset)).
Proof.
  intros x dataset.
  apply (train_dataset_without_last_week x []).
  - discriminate.
  - apply Forall_nil_2.
Defined.

(** X11. Which reference values the evaluation uses. For [n] hourly
    timestamps and a forecast of [k] steps ([0 < k <= n]), the last [k]
    values of a reference series are those of the timestamps starting
    [169 - k] hours after [end_of_train], whereas the forecast's timestamps,
    as [timesfm_predictions_to_timeseries] sets them, start at
    [end_of_train]. With the horizon of 168 steps each forecast value is
    compared with the reading one hour later. *)
Theorem evaluation_reference_timestamps (start : datetime) (n k : nat)
    (train_dataset : TimeSeries) (rows : list ndarray) :
  (0 < k <= n)%nat ->
  let e := start + timedelta_hours (Z.of_nat n - 1) in
  let predictions :=
    timesfm_predictions_to_timeseries (end_of_train e) train_dataset
      (mkNdarray2 k rows) "" None in
  timestamps predictions = Some (PyList (hourly (end_of_train e) k))
  /\ tail_slice (hourly start n) k =
     hourly (end_of_train e + timedelta_hours (169 - Z.of_nat k)) k.
Proof.
  intros [Hk Hkn] e predictions. split; [done|].
  unfold tail_slice. destruct k as [|k]; [lia|].
  rewrite length_hourly, drop_hourly.
  replace (n - (n - S k))%nat with (S k) by lia. f_equal.
  subst e. unfold end_of_train, timedelta_days, timedelta_hours. lia.
Qed.

Lemma evaluation_reference_timestamps_witness :
  tail_slice (hourly 0 200) 168 =
  hourly (end_of_train (0 + timedelta_hours (Z.of_nat 200 - 1))
          + timedelta_hours (169 - Z.of_nat 168)) 168.
Proof.
  apply (evaluation_reference_timestamps 0 200 168 (mkTimeSeries None []) []).
  lia.
Defined.

(** ** The evaluation of a forecast *)

(** X12. [a[-k:]] as the evaluation uses it: for [0 < k <= len(a)] it is
    the last [k] elements of [a]; for [k = 0], and for [k] beyond the
    length, it is the whole of [a]. *)
Theorem tail_slice_suffix {A : Type} (a : list A) (k : nat) :
  ((0 < k <= length a)%nat ->
   length (tail_slice a k) = k
   /\ take (length a - k) a ++ tail_slice a k = a)
  /\ (k = 0%nat \/ (length a <= k)%nat -> tail_slice a k = a).
Proof.
  split.
  - intros [Hk Hle]. destruct k as [|k]; [lia|]. unfold tail_slice.
    rewrite length_drop, take_drop. split; [lia|done].
  - intros [->|Hle]; [done|]. destruct k as [|k]; [done|]. unfold tail_slice.
    replace (length a - S k)%nat with 0%nat by lia. done.
Qed.

Lemma tail_slice_suffix_witness :
  length (tail_slice [1; 2; 3; 4; 5] 2) = 2%nat
  /\ take (length [1; 2; 3; 4; 5] - 2) [1; 2; 3; 4; 5]
       ++ tail_slice [1; 2; 3; 4; 5] 2 = [1; 2; 3; 4; 5].
Proof.
  apply (tail_slice_suffix [1; 2; 3; 4; 5] 2). cbn. lia.
Defined.

Lemma append_empty_l (s : string) : "" +:+ s = s.
Proof. done. Qed.

Lemma timesfm_default_lookup (end_of_train : datetime)
    (train_dataset : TimeSeries) (predictions : ndarray2) (prefix : string)
    (i : nat) (name : string) (row : ndarray) :
  dict_wf (features train_dataset) ->
  keys (features train_dataset) !! i = Some name ->
  rows predictions !! i = Some row ->
  dict_get (prefix +:+ name)
    (features (timesfm_predictions_to_timeseries end_of_train train_dataset
                 predictions prefix None)) = Some row.
Proof.
  intros Hwf Hname Hrow. rewrite timesfm_default_features by done.
  apply (dict_get_lookup _ i); [by apply prefixed_rows_NoDup|].
  unfold prefixed_rows. rewrite list_lookup_fmap.
  assert (Hz : zip (keys (features train_dataset)) (rows predictions) !! i
               = Some (name, row)).
  { apply lookup_zip_with_Some. eauto. }
  by rewrite Hz.
Qed.

(** X13. The evaluation of the converted forecast: when "OT_0" is the i-th
    training series and the forecast array has a row i, the evaluation of
    the container built by [timesfm_predictions_to_timeseries] is the RMSE
    of that row against the last values of the reference series "OT_0"; it
    returns a number whenever the row is not empty and not longer than the
    reference series. *)
Theorem evaluate_timesfm_predictions (end_of_train : datetime)
    (train_dataset dataset : TimeSeries) (predictions : ndarray2)
    (i : nat) (row ot : ndarray) :
  dict_wf (features train_dataset) ->
  keys (features train_dataset) !! i = Some "OT_0" ->
  rows predictions !! i = Some row ->
  dict_get "OT_0" (features dataset) = Some ot ->
  let c := timesfm_predictions_to_timeseries end_of_train train_dataset
             predictions "" None in
  evaluate c dataset = rmse row (tail_slice ot (length row))
  /\ ((0 < length row <= length ot)%nat -> is_Ok (evaluate c dataset)).
Proof.
  intros Hwf Hname Hrow Hot c.
  assert (Heval : evaluate c dataset = rmse row (tail_slice ot (length row))).
  { apply evaluate_eq; [|done]. subst c.
    apply (timesfm_default_lookup end_of_train train_dataset predictions ""
             i "OT_0" row); done. }
  split; [done|]. intros Hlen. rewrite Heval. unfold rmse.
  rewrite np_sub_same_length; [by eexists|].
  symmetry. by apply length_tail_slice.
Qed.

Lemma evaluate_timesfm_predictions_witness :
  let train := mkTimeSeries (Some (PyList [0])) [("HUFL", [7%float]); ("OT_0", [8%float])] in
  let dataset := mkTimeSeries (Some (PyList [0; 1; 2])) [("OT_0", [1; 2; 3]%float)] in
  let c := timesfm_predictions_to_timeseries 0 train
             (mkNdarray2 2 [[9; 9]; [2; 3]]%float) "" None in
  evaluate c dataset = Ok 0%float.
Proof.
  intros train dataset c. subst c.
  assert (Hwf : dict_wf (features train)).
  { unfold dict_wf. cbn. apply NoDup_cons. split.
    - rewrite list_elem_of_singleton. discriminate.
    - apply NoDup_singleton. }
  destruct (evaluate_timesfm_predictions 0 train dataset
              (mkNdarray2 2 [[9; 9]; [2; 3]]%float) 1 [2; 3]%float
              [1; 2; 3]%float Hwf eq_refl eq_refl eq_refl) as [Heval _].
  etrans; [exact Heval | reflexivity].
Defined.

Lemma rmse_not_KeyError (a b : ndarray) : rmse a b <> Raise KeyError.
Proof.
  unfold rmse, np_sub. case_decide; [done|].
  by destruct a as [|x [|x' a]], b as [|y [|y' b]].
Qed.

(** X14. The errors of the evaluation: it raises [KeyError] exactly when
    the forecast container or the reference container has no series "OT_0";
    and when both have one and the reference series is shorter than the
    forecast (neither being of length one) it raises [ValueError]. *)
Theorem evaluate_errors (predictions dataset : TimeSeries) :
  (evaluate predictions dataset = Raise KeyError
   <-> dict_get "OT_0" (features predictions) = None
       \/ dict_get "OT_0" (features dataset) = None)
  /\ (forall p ot,
        dict_get "OT_0" (features predictions) = Some p ->
        dict_get "OT_0" (features dataset) = Some ot ->
        (length ot < length p)%nat -> length ot <> 1%nat ->
        length p <> 1%nat ->
        evaluate predictions dataset = Raise ValueError).
Proof.
  split.
  - unfold evaluate, dict_getitem.
    destruct (dict_get "OT_0" (features predictions)) as [p|]; cbn [bind].
    + destruct (dict_get "OT_0" (features dataset)) as [ot|]; cbn [bind].
      * split; [|by intros [?|?]]. intros Hk. by apply rmse_not_KeyError in Hk.
      * split; [by right | done].
    + split; [by left | done].
  - intros p ot Hp Hot Hlt Hot1 Hp1.
    rewrite (evaluate_eq predictions dataset p ot Hp Hot).
    unfold rmse, np_sub.
    assert (Hlen : length (tail_slice ot (length p)) = length ot).
    { unfold tail_slice. destruct (length p) as [|k] eqn:Hk; [done|].
      replace (length ot - S k)%nat with 0%nat by lia. done. }
    rewrite decide_False by lia.
    destruct p as [|x [|x' p]]; [cbn in Hlt; lia | done |].
    destruct (tail_slice ot (length (x :: x' :: p))) as [|y [|y' t]];
      [done | cbn in Hlen; lia | done].
Qed.

Lemma evaluate_errors_witness :
  evaluate (mkTimeSeries (Some (PyList [0; 1; 2])) [("OT_0", [1; 2; 3]%float)])
           (mkTimeSeries (Some (PyList [0; 1])) [("OT_0", [1; 2]%float)])
  = Raise ValueError.
Proof.
  destruct (evaluate_errors
              (mkTimeSeries (Some (PyList [0; 1; 2])) [("OT_0", [1; 2; 3]%float)])
              (mkTimeSeries (Some (PyList [0; 1])) [("OT_0", [1; 2]%float)]))
    as [_ H].
  apply (H [1; 2; 3]%float [1; 2]%float); try reflexivity; cbn; lia.
Defined.

(** X15. Broadcasting in the RMSE: a sequence of length one behaves as that
    value repeated to the length of the other sequence, on either side. *)
Theorem rmse_broadcast (x : float) (b : ndarray) :
  rmse [x] b = rmse (replicate (length b) x) b
  /\ rmse b [x] = rmse b (replicate (length b) x).
Proof.
  assert (H1 : rmse [x] b = rmse (replicate (length b) x) b).
  { unfold rmse.
    rewrite (np_sub_same_length (replicate (length b) x) b)
      by apply length_replicate.
    rewrite zip_with_replicate_l by (rewrite ?length_replicate; lia).
    unfold np_sub. destruct b as [|y [|y' b]]; done. }
  split; [done|]. by rewrite (rmse_comm b [x]), H1, rmse_comm.
Qed.

(** X16. An empty sequence never gives a number: against a sequence of at
    most one element the RMSE is NaN, against a longer one the subtraction
    raises [ValueError]. *)
Theorem rmse_empty (b : ndarray) :
  ((length b <= 1)%nat -> rmse [] b = Ok nan /\ rmse b [] = Ok nan)
  /\ ((1 < length b)%nat ->
      rmse [] b = Raise ValueError /\ rmse b [] = Raise ValueError).
Proof.
  split; intros Hlen.
  - rewrite (rmse_comm b []). destruct b as [|y [|y' b]]; [done | done |].
    cbn in Hlen. lia.
  - rewrite (rmse_comm b []). destruct b as [|y [|y' b]]; [cbn in Hlen; lia ..|].
    done.
Qed.

Lemma rmse_empty_witness :
  rmse [] [1%float] = Ok nan /\ rmse [] [1; 2]%float = Raise ValueError.
Proof.
  split.
  - apply (rmse_empty [1%float]). cbn. lia.
  - apply (rmse_empty [1; 2]%float). cbn. lia.
Defined.

(** ** The series selected for display *)

Lemma append_assoc (a b c : string) : (a +:+ b) +:+ c = a +:+ (b +:+ c).
Proof.
  induction a as [|x a IHa]; [done|].
  change (String x ((a +:+ b) +:+ c) = String x (a +:+ (b +:+ c))).
  by f_equal.
Qed.

Lemma prefix_spec (n s : string) :
  String.prefix n s = true <-> exists b, s = n +:+ b.
Proof.
  revert s. induction n as [|x n IHn]; intros s.
  - split; [intros _; by exists s | intros _; by destruct s].
  - destruct s as [|y s]; cbn.
    + split; [done | by intros [b Hb]].
    + destruct (Ascii.ascii_dec x y) as [->|Hne].
      * rewrite IHn. split; intros [b Hb]; exists b.
        -- subst s. reflexivity.
        -- change (String y n +:+ b) with (String y (n +:+ b)) in Hb.
           by injection Hb.
      * split; [done|]. intros [b Hb].
        change (String x n +:+ b) with (String x (n +:+ b)) in Hb.
        injection Hb as Hxy _. done.
Qed.

Lemma str_in_spec (n name : string) :
  str_in n name = true <-> exists a b, name = a +:+ n +:+ b.
Proof.
  split.
  - induction name as [|c rest IHr].
    + cbn [str_in]. destruct (String.prefix n "") eqn:Hp; [|done].
      intros _. apply prefix_spec in Hp as [b Hb]. by exists "", b.
    + cbn [str_in]. destruct (String.prefix n (String c rest)) eqn:Hp.
      * intros _. apply prefix_spec in Hp as [b Hb]. by exists "", b.
      * intros (a & b & ->)%IHr. by exists (String c a), b.
  - intros (a & b & ->). induction a as [|c a IHa].
    + assert (Hp : String.prefix n (n +:+ b) = true).
      { apply prefix_spec. by exists b. }
      change ("" +:+ n +:+ b) with (n +:+ b). revert Hp.
      generalize (n +:+ b). intros s Hp. destruct s; cbn [str_in]; by rewrite Hp.
    + change (String c a +:+ n +:+ b) with (String c (a +:+ n +:+ b)).
      cbn [str_in]. by destruct (String.prefix n _).
Qed.

(** X17. [display] selects a series exactly when its name contains "OT_0"
    or "OT_1" as a substring, not only when it is one of the two names; so a
    selected name stays selected under any prefix, and every forecast series
    that [timesfm_predictions_to_timeseries] stores under a prefixed name of
    a selected training series is selected. *)
Theorem display_substring (name : string) :
  (display name = true
   <-> exists a b, name = a +:+ "OT_0" +:+ b \/ name = a +:+ "OT_1" +:+ b)
  /\ (forall prefix, display name = true -> display (prefix +:+ name) = true).
Proof.
  assert (Hspec : forall s, display s = true
            <-> exists a b, s = a +:+ "OT_0" +:+ b \/ s = a +:+ "OT_1" +:+ b).
  { intros s. unfold display, name_of_interest. cbn [existsb].
    rewrite orb_false_r, orb_true_iff, !str_in_spec.
    split.
    - intros [(a & b & ->)|(a & b & ->)]; exists a, b; auto.
    - intros (a & b & [->| ->]); [left | right]; by exists a, b. }
  split; [apply Hspec|].
  intros prefix (a & b & Hab)%Hspec. apply Hspec.
  exists (prefix +:+ a), b. rewrite !append_assoc.
  destruct Hab as [->| ->]; auto.
Qed.

Lemma display_substring_witness :
  display ("deepar_" +:+ "OT_1") = true.
Proof.
  apply (display_substring "OT_1"). reflexivity.
Defined.

(** ** The context-length sweep *)

Section SweepFacts.
Variable forecast : Z -> ndarray2.
Variable end_of_train_date : datetime.
Variable train_dataset dataset : TimeSeries.

Lemma sweep_loop_results (idxs : list Z) (results rs : list (float * Z)) :
  sweep_loop forecast end_of_train_date train_dataset dataset idxs results
    = Ok rs ->
  exists new, rs = results ++ new
    /\ new.*2 = (fun i => 32 * i) <$> idxs
    /\ Forall (fun rc =>
         evaluate (timesfm_predictions_to_timeseries end_of_train_date
                     train_dataset (forecast rc.2) "" None) dataset
         = Ok rc.1) new.
Proof.
  revert results. induction idxs as [|i idxs IHi]; intros results Hrs.
  - injection Hrs as <-. exists []. by rewrite app_nil_r.
  - cbn [sweep_loop] in Hrs.
    destruct (evaluate _ dataset) as [r|e] eqn:Hr; [|done]. cbn [bind] in Hrs.
    destruct (IHi _ Hrs) as (new & -> & Hctx & Hall).
    exists ((r, 32 * i) :: new). split_and!.
    + by rewrite <- app_assoc.
    + by rewrite !fmap_cons, Hctx.
    + by apply Forall_cons.
Qed.

Lemma sweep_loop_raise (i : Z) (idxs : list Z) (results : list (float * Z))
    (e : exn) :
  evaluate (timesfm_predictions_to_timeseries end_of_train_date train_dataset
              (forecast (32 * i)) "" None) dataset = Raise e ->
  sweep_loop forecast end_of_train_date train_dataset dataset (i :: idxs)
    results = Raise e.
Proof. intros He. cbn [sweep_loop]. by rewrite He. Qed.

End SweepFacts.

(** X18. The sweep over context lengths. When it completes, it has recorded
    one result per index 1, ..., n-1, with context lengths 32, 64, ...,
    32(n-1) in this order: the configured maximum 32n is never evaluated.
    Each recorded RMSE is the evaluation of the forecast made with the
    recorded context length. When no training series is named "OT_0" and
    there is at least one index to run, the sweep raises [KeyError]. *)
Theorem sweep_context_lengths (forecast : Z -> ndarray2)
    (end_of_train_date : datetime) (train_dataset dataset : TimeSeries)
    (n : nat) :
  (forall rs,
     sweep forecast end_of_train_date train_dataset dataset n = Ok rs ->
     rs.*2 = (fun i => 32 * Z.of_nat i) <$> seq 1 (n - 1)
     /\ Forall (fun c => 32 <= c < 32 * Z.of_nat n) rs.*2
     /\ Forall (fun rc =>
          evaluate (timesfm_predictions_to_timeseries end_of_train_date
                      train_dataset (forecast rc.2) "" None) dataset
          = Ok rc.1) rs)
  /\ (dict_wf (features train_dataset) ->
      dict_get "OT_0" (features train_dataset) = None ->
      (2 <= n)%nat ->
      sweep forecast end_of_train_date train_dataset dataset n
        = Raise KeyError).
Proof.
  split.
  - intros rs Hrs. unfold sweep in Hrs.
    apply sweep_loop_results in Hrs as (new & -> & Hctx & Hall).
    rewrite app_nil_l. rewrite Hctx, <- list_fmap_compose.
    split_and!; [done | | done].
    apply Forall_fmap, Forall_forall. intros i Hi%elem_of_seq. cbn. lia.
  - intros Hwf Hnone Hn. unfold sweep.
    destruct n as [|[|n]]; [lia | lia |]. cbn [Nat.sub seq fmap list_fmap].
    apply sweep_loop_raise. unfold evaluate, dict_getitem.
    rewrite timesfm_default_features by done.
    assert (Hget : dict_get "OT_0"
                     (prefixed_rows (features train_dataset) ""
                        (rows (forecast (32 * Z.of_nat 1)))) = None).
    { apply dict_get_None. unfold keys at 1. rewrite prefixed_rows_keys.
      intros (k & Hk & Hin)%list_elem_of_fmap.
      change ("" +:+ k) with k in Hk. subst k.
      apply dict_get_None in Hnone. apply Hnone.
      apply elem_of_take in Hin as (j & Hj & _).
      by eapply list_elem_of_lookup_2. }
    by rewrite Hget.
Qed.

Lemma sweep_context_lengths_witness :
  let train := mkTimeSeries (Some (PyList [0])) [("HUFL", [7%float])] in
  let dataset := mkTimeSeries (Some (PyList [0; 1])) [("OT_0", [1; 2]%float)] in
  sweep (fun _ => mkNdarray2 2 [[1; 2]%float]) 0 train dataset 3
  = Raise KeyError.
Proof.
  intros train dataset.
  apply (sweep_context_lengths (fun _ => mkNdarray2 2 [[1; 2]%float]) 0
           train dataset 3).
  - unfold dict_wf. cbn. apply NoDup_singleton.
  - reflexivity.
  - lia.
Defined.

(** ** Several forecast runs in one container *)

(** X19. Two runs accumulated in one container. When the features of a
    first call with prefix [p1] are passed to a second call with prefix
    [p2], and no name prefixed by [p1] equals a name prefixed by [p2], the
    container holds the series of the first run followed by those of the
    second, and its timestamps are those of the second forecast array
    alone. *)
Theorem timesfm_two_runs (end_of_train : datetime) (train_dataset : TimeSeries)
    (predictions1 predictions2 : ndarray2) (p1 p2 : string) :
  dict_wf (features train_dataset) ->
  (forall k1 k2, k1 ∈ keys (features train_dataset) ->
                 k2 ∈ keys (features train_dataset) ->
                 p1 +:+ k1 <> p2 +:+ k2) ->
  let c1 := timesfm_predictions_to_timeseries end_of_train train_dataset
              predictions1 p1 None in
  let c2 := timesfm_predictions_to_timeseries end_of_train train_dataset
              predictions2 p2 (Some (features c1)) in
  features c2 =
    prefixed_rows (features train_dataset) p1 (rows predictions1)
    ++ prefixed_rows (features train_dataset) p2 (rows predictions2)
  /\ timestamps c2 = Some (PyList (hourly end_of_train (shape1 predictions2))).
Proof.
  intros Hwf Hdisj c1 c2. subst c1 c2. split; [|done].
  rewrite timesfm_predictions_to_timeseries_eq. cbn [features default].
  rewrite timesfm_default_features by done.
  apply dict_update_fresh; [by apply prefixed_rows_NoDup|].
  intros k Hk Hk1. unfold keys in Hk1. rewrite prefixed_rows_keys in Hk, Hk1.
  apply list_elem_of_fmap in Hk as (k2 & -> & Hk2).
  apply list_elem_of_fmap in Hk1 as (k1 & Heq & Hk1).
  apply elem_of_take in Hk1 as (i1 & Hi1 & _).
  apply elem_of_take in Hk2 as (i2 & Hi2 & _).
  apply (Hdisj k1 k2); [by eapply list_elem_of_lookup_2 .. | done].
Qed.

Lemma timesfm_two_runs_witness :
  let train := mkTimeSeries (Some (PyList [0])) [("OT_0", [8%float])] in
  let c1 := timesfm_predictions_to_timeseries 0 train
              (mkNdarray2 1 [[1%float]]) "a_" None in
  let c2 := timesfm_predictions_to_timeseries 0 train
              (mkNdarray2 1 [[2%float]]) "b_" (Some (features c1)) in
  features c2 = [("a_OT_0", [1%float]); ("b_OT_0", [2%float])].
Proof.
  intros train c1 c2. subst c1 c2.
  assert (Hwf : dict_wf (features train)).
  { unfold dict_wf. cbn. apply NoDup_singleton. }
  destruct (timesfm_two_runs 0 train (mkNdarray2 1 [[1%float]])
              (mkNdarray2 1 [[2%float]]) "a_" "b_" Hwf) as [Hfs _].
  - intros k1 k2 Hk1 Hk2. cbn in Hk1, Hk2.
    apply list_elem_of_singleton in Hk1, Hk2. subst. discriminate.
  - etrans; [exact Hfs | reflexivity].
Defined.

(** ** The dictionary of the training data passed as [features] *)

Lemma filter_nil_keys (l : list string) (ks : list string) :
  filter (fun k => k ∉ ks) l = [] <-> forall k, k ∈ l -> k ∈ ks.
Proof.
  induction l as [|x l IHl].
  - split; [intros _ k Hk; by apply elem_of_nil in Hk | done].
  - destruct (decide (x ∈ ks)) as [Hx|Hx].
    + rewrite filter_cons_False by (intros Hn; by apply Hn).
      rewrite IHl. split.
      * intros Hall k [->|Hk]%elem_of_cons; auto.
      * intros Hall k Hk. apply Hall. by apply list_elem_of_further.
    + rewrite filter_cons_True by done. split; [done|].
      intros Hall. destruct Hx. apply Hall, list_elem_of_here.
Qed.

Module AliasFacts.

Lemma keys_dict_set_present (d : dict ndarray) (k : string) (v : ndarray) :
  k ∈ keys d -> keys (dict_set k v d) = keys d.
Proof. intros Hk. rewrite keys_dict_set. by rewrite decide_True. Qed.

Lemma zip_loop_alias (train_dataset : Store.TimeSeriesObj) (pos : nat)
    (predictions : list ndarray) (s : Store.store) (d : dict ndarray) :
  s !! Store.obj_features train_dataset = Some d ->
  Store.zip_loop train_dataset (length d) pos predictions ""
    (Store.obj_features train_dataset) s =
  (Ok tt,
   <[Store.obj_features train_dataset :=
       dict_update d (zip (drop pos (keys d)) predictions)]> s).
Proof.
  revert pos s d. induction predictions as [|p ps IHp]; intros pos s d Hd;
    assert (Hderef : Store.deref s (Store.obj_features train_dataset) = d)
      by (unfold Store.deref; by rewrite Hd).
  - rewrite StoreFacts.zip_nil_r. cbn [Store.zip_loop dict_update foldl].
    rewrite !Hderef, decide_True by done. rewrite insert_id by done.
    by destruct (d !! pos) as [[? ?]|].
  - cbn [Store.zip_loop]. rewrite !Hderef, decide_True by done.
    destruct (d !! pos) as [[name v]|] eqn:Hpos.
    + assert (Hname : keys d !! pos = Some name).
      { unfold keys. by rewrite list_lookup_fmap, Hpos. }
      assert (Hin : name ∈ keys d) by (by eapply list_elem_of_lookup_2).
      unfold Store.mbind, Store.setitem.
      change ("" +:+ name) with name.
      rewrite (StoreFacts.alter_lookup s _ d) by done.
      assert (Hlen : length (dict_set name p d) = length d).
      { rewrite <- (length_fmap fst (dict_set name p d)).
        change (fst <$> dict_set name p d) with (keys (dict_set name p d)).
        rewrite keys_dict_set_present by done. apply length_fmap. }
      rewrite <- Hlen.
      rewrite (IHp (S pos) _ (dict_set name p d)) by apply lookup_insert_eq.
      rewrite insert_insert_eq, keys_dict_set_present by done.
      by rewrite (drop_S _ name pos).
    + rewrite drop_ge.
      * cbn. by rewrite insert_id.
      * unfold keys. rewrite length_fmap. by apply lookup_ge_None.
Qed.

(** X20. Passing the dictionary of [train_dataset] itself as [features],
    with the empty prefix: the loop assigns under keys the dictionary
    already has, so its key iterator raises nothing; the call returns a
    container whose [features] is the training dictionary, in which the
    series have been replaced by the forecast rows, the names and their
    order unchanged. The container read back is the one the value-level
    function computes from the training series. *)
Theorem timesfm_features_is_train_dataset (end_of_train : datetime)
    (train_dataset : Store.TimeSeriesObj) (predictions : ndarray2)
    (s : Store.store) (d : dict ndarray) :
  s !! Store.obj_features train_dataset = Some d ->
  dict_wf d ->
  let r := Store.timesfm_predictions_to_timeseries end_of_train train_dataset
             predictions "" (Some (Store.obj_features train_dataset)) s in
  exists o, r.1 = Ok o
    /\ Store.obj_features o = Store.obj_features train_dataset
    /\ Store.read r.2 o =
       timesfm_predictions_to_timeseries end_of_train
         (Store.read s train_dataset) predictions "" (Some d)
    /\ keys (Store.deref r.2 (Store.obj_features train_dataset)) = keys d
    /\ forall i name row,
         keys d !! i = Some name -> rows predictions !! i = Some row ->
         dict_get name (Store.deref r.2 (Store.obj_features train_dataset))
         = Some row.
Proof.
  intros Hd Hwf r. subst r.
  assert (Hderef : Store.deref s (Store.obj_features train_dataset) = d)
    by (unfold Store.deref; by rewrite Hd).
  unfold Store.timesfm_predictions_to_timeseries, Store.mbind, Store.ret.
  rewrite Hderef.
  rewrite (zip_loop_alias train_dataset 0 (rows predictions) s d Hd).
  rewrite drop_0. eexists. split; [done|]. cbn [fst snd Store.obj_features].
  rewrite StoreFacts.deref_insert_eq.
  assert (Hnew : zip (keys d) (rows predictions)
                 = prefixed_rows d "" (rows predictions)).
  { unfold prefixed_rows. rewrite <- (list_fmap_id (zip _ _)) at 1.
    apply list_fmap_ext. by intros i [k v] _. }
  split_and!.
  - done.
  - unfold Store.read. cbn [Store.obj_timestamps Store.obj_features].
    rewrite StoreFacts.deref_insert_eq, timesfm_predictions_to_timeseries_eq.
    cbn [features default]. rewrite Hderef. by rewrite Hnew.
  - rewrite keys_dict_update.
    + rewrite (proj2 (filter_nil_keys _ _)); [by rewrite app_nil_r|].
      intros k Hk. rewrite zip_fst_take in Hk.
      apply elem_of_take in Hk as (i & Hi & _).
      by eapply list_elem_of_lookup_2.
    + rewrite zip_fst_take. by apply NoDup_take_1.
  - intros i name row Hname Hrow. rewrite dict_get_update.
    rewrite (last_with_key_elem _ name row); [done | |].
    + rewrite zip_fst_take. by apply NoDup_take_1.
    + apply list_elem_of_lookup. exists i. apply lookup_zip_with_Some. eauto.
Qed.

Lemma timesfm_features_is_train_dataset_witness :
  let s : Store.store :=
    {[1%positive := [("HUFL", [7%float]); ("OT_0", [8%float])]]} in
  let train := Store.mkObj (Some (PyList [0])) 1%positive in
  let r := Store.timesfm_predictions_to_timeseries 0 train
             (mkNdarray2 1 [[1%float]; [2%float]]) "" (Some 1%positive) s in
  exists o, r.1 = Ok o
    /\ Store.obj_features o = 1%positive
    /\ dict_get "OT_0" (Store.deref r.2 1%positive) = Some [2%float].
Proof.
  intros s train r. subst r.
  destruct (timesfm_features_is_train_dataset 0 train
              (mkNdarray2 1 [[1%float]; [2%float]]) s
              [("HUFL", [7%float]); ("OT_0", [8%float])])
    as (o & Ho & Hobj & _ & _ & Hget).
  - reflexivity.
  - unfold dict_wf. cbn. apply NoDup_cons. split.
    + rewrite list_elem_of_singleton. discriminate.
    + apply NoDup_singleton.
  - exists o. split_and!; [exact Ho | exact Hobj |].
    apply (Hget 1%nat); reflexivity.
Defined.

(** X21. Passing the dictionary of [train_dataset] itself as [features],
    with a prefix that makes a new key of the first series name: the first
    assignment adds an entry to the dictionary being iterated, and asking
    the key iterator for the next name raises [RuntimeError]; the training
    dictionary is left with that one entry added. *)
Theorem timesfm_features_is_train_dataset_grows (end_of_train : datetime)
    (train_dataset : Store.TimeSeriesObj) (shape : nat) (p : ndarray)
    (ps : list ndarray) (prefix name : string) (v : ndarray)
    (d : dict ndarray) (s : Store.store) :
  s !! Store.obj_features train_dataset = Some ((name, v) :: d) ->
  prefix +:+ name ∉ keys ((name, v) :: d) ->
  Store.timesfm_predictions_to_timeseries end_of_train train_dataset
    (mkNdarray2 shape (p :: ps)) prefix
    (Some (Store.obj_features train_dataset)) s =
  (Raise RuntimeError,
   <[Store.obj_features train_dataset :=
       ((name, v) :: d) ++ [(prefix +:+ name, p)]]> s).
Proof.
  intros Hd Hnew.
  assert (Hderef : Store.deref s (Store.obj_features train_dataset)
                   = (name, v) :: d)
    by (unfold Store.deref; by rewrite Hd).
  unfold Store.timesfm_predictions_to_timeseries, Store.mbind, Store.ret.
  cbn [rows Store.zip_loop]. rewrite !Hderef, decide_True by done.
  cbn [lookup list_lookup]. unfold Store.mbind, Store.setitem.
  rewrite (StoreFacts.alter_lookup s _ ((name, v) :: d)) by done.
  rewrite dict_set_fresh by done.
  destruct ps as [|p' ps]; cbn [Store.zip_loop];
    rewrite StoreFacts.deref_insert_eq;
    (rewrite decide_False; [done|]); rewrite length_app; cbn; lia.
Qed.

Lemma timesfm_features_is_train_dataset_grows_witness :
  let s : Store.store := {[1%positive := [("OT_0", [8%float])]]} in
  let train := Store.mkObj (Some (PyList [0])) 1%positive in
  (Store.timesfm_predictions_to_timeseries 0 train
     (mkNdarray2 1 [[1%float]]) "run_" (Some 1%positive) s).1
  = Raise RuntimeError.
Proof.
  intros s train.
  assert (Hnew : "run_" +:+ "OT_0" ∉ keys [("OT_0", [8%float])]).
  { cbn. rewrite list_elem_of_singleton. discriminate. }
  exact (f_equal fst
           (timesfm_features_is_train_dataset_grows 0 train 1 [1%float] []
              "run_" "OT_0" [8%float] [] s eq_refl Hnew)).
Defined.

End AliasFacts.
